(** * JoystickXL (minimal): the input-state-to-report engine

    A shallow embedding of [joystick_xl_min/joystick.py] and of the
    constants of [joystick_xl_min/inputs.py], with the properties of the
    report engine proved over it.

    Python integers are unbounded and are modelled by [Z]; Python lists
    by [list], indexed the way Python indexes them (negative indices count
    from the end, anything else out of range raises [IndexError]);
    exceptions by a sum type; the mutable [Joystick] object, its
    class-level configuration and the HID device it writes to by a record
    threaded through a state-and-exception monad, so that the state a
    raising call leaves behind is part of its result. *)

From Stdlib Require Import ZArith List String Ascii Bool Lia.
From stdpp Require Import base list.
Import ListNotations.

Local Open Scope string_scope.
Local Open Scope list_scope.
Local Open Scope Z_scope.

(** ** Exceptions *)

Inductive exn : Type :=
| ValueError (msg : string)
| OSError
| IndexError
| NameError (name : string)
| StructError
| Exception (msg : string).

(** The messages the source raises, under the names the specification
    gives to the corresponding errors. *)
Module RangeError.
Definition NoAxes : exn := ValueError "There are no axes configured.".
Definition AxisIndex : exn := ValueError "Specified axis is out of range.".
Definition AxisValue : exn := ValueError "Axis value must be in range 0 to 255".
Definition NoButtons : exn := ValueError "There are no buttons configured.".
Definition ButtonIndex : exn := ValueError "Specified button is out of range.".
End RangeError.

Definition ConfigurationError : exn :=
  Exception "Error loading JoystickXL configuration.".

Definition DeviceNotFound : exn :=
  ValueError "Could not find JoystickXL HID device - check boot.py.)".

(** ** inputs.py: the constants of class [Axis] *)

Module Axis.
Definition MIN : Z := 0.
Definition MAX : Z := 255.
Definition IDLE : Z := 128.
Definition X : Z := 0.
Definition Y : Z := 1.
Definition RX : Z := 3.
Definition RY : Z := 4.
Definition RZ : Z := 5.
Definition S0 : Z := 6.
Definition S1 : Z := 7.
(** The alias of the Z-axis index comes last: inside this module its
    name hides the type of integers. *)
Definition Z : BinNums.Z := 2.
End Axis.

(** ** Python lists *)

Module Py.

(** The position a Python index denotes in a list of length [len]:
    [0 <= i < len] is itself, [-len <= i < 0] counts from the end, and
    every other index is out of range. *)
Definition index (len : nat) (i : Z) : option nat :=
  if (0 <=? i) && (i <? Z.of_nat len) then Some (Z.to_nat i)
  else if (- Z.of_nat len <=? i) && (i <? 0) then Some (Z.to_nat (Z.of_nat len + i))
  else None.

(** [l[i] = v]: [None] stands for [IndexError]. *)
Definition setitem (l : list Z) (i : Z) (v : Z) : option (list Z) :=
  match index (length l) i with
  | Some k => Some (<[k := v]> l)
  | None => None
  end.

(** [l[i]] *)
Definition getitem (l : list Z) (i : Z) : option Z :=
  match index (length l) i with
  | Some k => l !! k
  | None => None
  end.

(** [range(n)] as the number of iterations: none for [n <= 0]. *)
Definition range (n : Z) : nat := Z.to_nat n.

End Py.

(** ** Python strings, as far as the configuration scan uses them

    A string is its sequence of characters, one [ascii] each.  Whitespace
    and digits are the ASCII ones, which is what [str.split], [str.isdigit]
    and [int] go by on ASCII text; on other text Python also knows further
    whitespace and digit characters, so what is proved about the contents
    of a line is stated for lines that pass [is_ascii].  [int] is the value
    of a digit string; Python's [int] raises [ValueError] on a digit string
    longer than [int_max_str_digits], so the same results are stated for
    digit strings that pass [int_accepts]. *)

Module Str.

(** [str.isspace] on one ASCII character: tab to carriage return, the
    four separators 28..31, and the space. *)
Definition isspace (c : ascii) : bool :=
  let n := nat_of_ascii c in
  ((9 <=? n) && (n <=? 13) || (28 <=? n) && (n <=? 32))%nat.

Definition isdigit_char (c : ascii) : bool :=
  let n := nat_of_ascii c in ((48 <=? n) && (n <=? 57))%nat.

Definition digit_value (c : ascii) : Z := Z.of_nat (nat_of_ascii c) - 48.

Fixpoint all_digits (s : string) : bool :=
  match s with
  | EmptyString => true
  | String c s' => isdigit_char c && all_digits s'
  end.

(** [s.isdigit()] on ASCII text: at least one character, and all of them
    digits. *)
Definition isdigit (s : string) : bool :=
  match s with
  | EmptyString => false
  | String _ _ => all_digits s
  end.

Fixpoint int_from (acc : Z) (s : string) : Z :=
  match s with
  | EmptyString => acc
  | String c s' => int_from (10 * acc + digit_value c) s'
  end.

(** [int(s)] for a string of decimal digits. *)
Definition int (s : string) : Z := int_from 0 s.

(** [sys.int_info.default_max_str_digits]: the most digits [int] converts. *)
Definition int_max_str_digits : nat := 4300.

(** The digit string [s] is short enough for [int(s)] to return. *)
Definition int_accepts (s : string) : bool :=
  (String.length s <=? int_max_str_digits)%nat.

(** The token collected so far (latest character first), closed. *)
Definition flush (tok : list ascii) : list string :=
  match tok with
  | [] => []
  | _ :: _ => [string_of_list_ascii (rev tok)]
  end.

Fixpoint split_from (tok : list ascii) (s : string) : list string :=
  match s with
  | EmptyString => flush tok
  | String c s' =>
      if isspace c then flush tok ++ split_from [] s'
      else split_from (c :: tok) s'
  end.

(** [s.split()] on ASCII text: the maximal runs of non-whitespace
    characters. *)
Definition split (s : string) : list string := split_from [] s.

(** Every character of [s] is an ASCII character. *)
Fixpoint is_ascii (s : string) : bool :=
  match s with
  | EmptyString => true
  | String c s' => (nat_of_ascii c <? 128)%nat && is_ascii s'
  end.

(** [sub in s] *)
Fixpoint contains (sub s : string) : bool :=
  String.prefix sub s ||
  match s with
  | EmptyString => false
  | String _ s' => contains sub s'
  end.

End Str.

(** ** struct.pack_into and bytearray *)

Module struct.

(** The number of items of a run of format codes.  The engine only ever
    builds formats out of the code [B] (one unsigned byte); a format with
    any other code is outside this model and is answered by [None]. *)
Fixpoint items (codes : string) : option nat :=
  match codes with
  | EmptyString => Some O
  | String c rest =>
      if Ascii.eqb c "B"%char then option_map S (items rest) else None
  end.

(** [struct.calcsize] of a little-endian format. *)
Definition calcsize (fmt : string) : option nat :=
  match fmt with
  | String c codes => if Ascii.eqb c "<"%char then items codes else None
  | EmptyString => None
  end.

Definition is_byte (v : Z) : bool := (0 <=? v) && (v <=? 255).

(** [struct.pack_into] of [values] into [buffer] at [offset]: the buffer with
    the packed bytes written from [offset] on.  [None] stands for
    [struct.error]: as many values as the format has items, room for
    them in the buffer, and every value a byte.  The last test only matters
    for values written with validation skipped; validated axis values and
    button bytes are bytes. *)
Definition pack_into (fmt : string) (buffer : list Z) (offset : nat)
    (values : list Z) : option (list Z) :=
  match calcsize fmt with
  | Some n =>
      if ((n =? length values) && (offset + n <=? length buffer))%nat
         && forallb is_byte values
      then Some (take offset buffer ++ values ++ drop (offset + n) buffer)
      else None
  | None => None
  end.

(** The values [struct.pack_into] writes before it meets one that is not
    a byte. *)
Fixpoint leading_bytes (values : list Z) : list Z :=
  match values with
  | [] => []
  | v :: rest => if is_byte v then v :: leading_bytes rest else []
  end.

(** The buffer a [struct.pack_into] that raises leaves behind.  The
    number of values and the room in the buffer are tested before anything
    is written; after that the bytes of the fields are zeroed and the values
    written one by one, so a value that is not a byte is met with the
    values before it written and zeros behind them. *)
Definition pack_into_failed (fmt : string) (buffer : list Z) (offset : nat)
    (values : list Z) : list Z :=
  match calcsize fmt with
  | Some n =>
      if ((n =? length values) && (offset + n <=? length buffer))%nat
      then take offset buffer
           ++ leading_bytes values
           ++ repeat 0 (n - length (leading_bytes values))
           ++ drop (offset + n) buffer
      else buffer
  | None => buffer
  end.

End struct.

(** [bytearray(n)]: [n] zero bytes; a negative count is a [ValueError]. *)
Definition bytearray (n : Z) : exn + list Z :=
  if n <? 0 then inl (ValueError "negative count")
  else inr (repeat 0 (Z.to_nat n)).

(** ** usb_hid: the device the reports go to *)

Record Device : Type := {
  usage_page : Z;
  usage : Z;
  has_send_report : bool;
  (** the outcome of the coming calls of [send_report], in order: [true]
      for a call that raises [OSError]; past the end every call succeeds *)
  faults : list bool;
  (** the reports the host has received, oldest first *)
  sent : list (list Z)
}.

(** [device.send_report(report)] *)
Definition send_report (d : Device) (report : list Z) : (exn + unit) * Device :=
  match faults d with
  | true :: fs =>
      (inl OSError,
       {| usage_page := usage_page d; usage := usage d;
          has_send_report := has_send_report d; faults := fs; sent := sent d |})
  | false :: fs =>
      (inr tt,
       {| usage_page := usage_page d; usage := usage d;
          has_send_report := has_send_report d; faults := fs;
          sent := sent d ++ [report] |})
  | [] =>
      (inr tt,
       {| usage_page := usage_page d; usage := usage d;
          has_send_report := has_send_report d; faults := [];
          sent := sent d ++ [report] |})
  end.

(** The test of [_get_device]: a joystick (usage page 1, usage 4) that can
    send reports. *)
Definition is_joystick (device : Device) : bool :=
  (usage_page device =? 1) && (usage device =? 4) && has_send_report device.

(** [_get_device()]: the first active device that passes the test. *)
Fixpoint _get_device (devices : list Device) : exn + Device :=
  match devices with
  | [] => inl DeviceNotFound
  | device :: rest =>
      if is_joystick device then inr device else _get_device rest
  end.

(** ** The Joystick object *)

(** The class-level attributes [Joystick._num_axes], [Joystick._num_buttons]
    and [Joystick._report_size]: written by the configuration scan, read by
    everything else. *)
Record JoystickClass : Type := {
  _num_axes : Z;
  _num_buttons : Z;
  _report_size : Z
}.

(** The attributes as the class statement initialises them. *)
Definition class_defaults : JoystickClass :=
  {| _num_axes := 0; _num_buttons := 0; _report_size := 0 |}.

Record Joystick : Type := {
  cls : JoystickClass;
  _device : Device;
  _report : list Z;
  _last_report : list Z;
  _format : string;
  _axis_states : list Z;
  _button_states : list Z
}.

(** The properties [num_axes] and [num_buttons]. *)
Definition num_axes (self : Joystick) : Z := _num_axes (cls self).
Definition num_buttons (self : Joystick) : Z := _num_buttons (cls self).

Definition set_device (d : Device) (self : Joystick) : Joystick :=
  {| cls := cls self; _device := d; _report := _report self;
     _last_report := _last_report self; _format := _format self;
     _axis_states := _axis_states self; _button_states := _button_states self |}.

Definition set_report (r : list Z) (self : Joystick) : Joystick :=
  {| cls := cls self; _device := _device self; _report := r;
     _last_report := _last_report self; _format := _format self;
     _axis_states := _axis_states self; _button_states := _button_states self |}.

Definition set_last_report (r : list Z) (self : Joystick) : Joystick :=
  {| cls := cls self; _device := _device self; _report := _report self;
     _last_report := r; _format := _format self;
     _axis_states := _axis_states self; _button_states := _button_states self |}.

Definition set_axis_states (l : list Z) (self : Joystick) : Joystick :=
  {| cls := cls self; _device := _device self; _report := _report self;
     _last_report := _last_report self; _format := _format self;
     _axis_states := l; _button_states := _button_states self |}.

Definition set_button_states (l : list Z) (self : Joystick) : Joystick :=
  {| cls := cls self; _device := _device self; _report := _report self;
     _last_report := _last_report self; _format := _format self;
     _axis_states := _axis_states self; _button_states := l |}.

(** ** Methods run in a state-and-exception monad

    A method takes the object and gives back either a value or the
    exception it raised, together with the object as the method left it:
    what was written before a [raise] stays written. *)

Definition M (A : Type) : Type := Joystick -> (exn + A) * Joystick.

Definition ret {A} (a : A) : M A := fun self => (inr a, self).

Definition raise {A} (e : exn) : M A := fun self => (inl e, self).

Definition bind {A B} (m : M A) (k : A -> M B) : M B :=
  fun self =>
    match m self with
    | (inr a, self') => k a self'
    | (inl e, self') => (inl e, self')
    end.

Definition gets {A} (f : Joystick -> A) : M A := fun self => (inr (f self), self).

Definition modify (f : Joystick -> Joystick) : M unit := fun self => (inr tt, f self).

Notation "'let*' x ':=' m 'in' k" := (bind m (fun x => k))
  (at level 10, x name, m at level 100, k at level 200).
Notation "m '>>' k" := (bind m (fun _ => k))
  (at level 100, k at level 200, right associativity).

(** [for x in l: body(x)] *)
Fixpoint for_each {A} (body : A -> M unit) (l : list A) : M unit :=
  match l with
  | [] => ret tt
  | x :: rest => body x >> for_each body rest
  end.

(** [try: body  except OSError: handler] *)
Definition try_except_OSError (body handler : M unit) : M unit :=
  fun self =>
    match body self with
    | (inl OSError, self') => handler self'
    | r => r
    end.

(** [for i in range(n)]: the indices the loop runs through. *)
Definition range_indices (n : nat) : list Z := map Z.of_nat (seq 0 n).

(** [self._axis_states[i] = v] *)
Definition axis_setitem (i v : Z) : M unit :=
  fun self =>
    match Py.setitem (_axis_states self) i v with
    | Some l => (inr tt, set_axis_states l self)
    | None => (inl IndexError, self)
    end.

(** [self._button_states[i] = v] *)
Definition button_setitem (i v : Z) : M unit :=
  fun self =>
    match Py.setitem (_button_states self) i v with
    | Some l => (inr tt, set_button_states l self)
    | None => (inl IndexError, self)
    end.

(** [self._button_states[i]] *)
Definition button_getitem (i : Z) : M Z :=
  fun self =>
    match Py.getitem (_button_states self) i with
    | Some x => (inr x, self)
    | None => (inl IndexError, self)
    end.

(** [Joystick._validate_axis_value(axis, value)] *)
Definition _validate_axis_value (axis value : Z) : M bool :=
  let* n := gets (fun self => _num_axes (cls self)) in
  if n =? 0 then raise RangeError.NoAxes
  else if axis + 1 >? n then raise RangeError.AxisIndex
  else if negb ((Axis.MIN <=? value) && (value <=? Axis.MAX))
       then raise RangeError.AxisValue
  else ret true.

(** [Joystick._validate_button_number(button)] *)
Definition _validate_button_number (button : Z) : M bool :=
  let* n := gets (fun self => _num_buttons (cls self)) in
  if n =? 0 then raise RangeError.NoButtons
  else if negb ((0 <=? button) && (button <=? n - 1))
       then raise RangeError.ButtonIndex
  else ret true.

(** [Joystick.update(always)]: the report cycle. *)
Definition update (always : bool) : M unit :=
  fun self =>
    let report_data := _axis_states self ++ _button_states self in
    match struct.pack_into (_format self) (_report self) 0 report_data with
    | None =>
        (inl StructError,
         set_report
           (struct.pack_into_failed (_format self) (_report self) 0 report_data)
           self)
    | Some report =>
        let self1 := set_report report self in
        if always || negb (bool_decide (_last_report self1 = _report self1))
        then
          match send_report (_device self1) (_report self1) with
          | (inr _, d) => (inr tt, set_last_report (_report self1) (set_device d self1))
          | (inl e, d) => (inl e, set_device d self1)
          end
        else (inr tt, self1)
    end.

(** [Joystick.reset_all()] *)
Definition reset_all : M unit :=
  let* n := gets num_axes in
  for_each (fun i => axis_setitem i Axis.IDLE) (range_indices (Py.range n)) >>
  let* len := gets (fun self => length (_button_states self)) in
  for_each (fun i => button_setitem i 0) (range_indices len) >>
  update true.

(** [if self.num_axes > 7 and a > 5: a = self.num_axes - a + 5]: the
    index [a] as the assignment that follows uses it. *)
Definition reverse_sliders (n a : Z) : Z :=
  if (n >? 7) && (a >? 5) then n - a + 5 else a.

(** The body of the loop of [update_axis], for one pair. *)
Definition update_axis_pair (skip_validation : bool) (p : Z * Z) : M unit :=
  let '(a, value) := p in
  let* ok := (if skip_validation then ret true else _validate_axis_value a value) in
  if ok : bool then
    let* n := gets num_axes in
    axis_setitem (reverse_sliders n a) value
  else ret tt.

(** [Joystick.update_axis] on the pairs [axis], with [defer] and [skip_validation] *)
Definition update_axis (axis : list (Z * Z)) (defer skip_validation : bool) : M unit :=
  for_each (update_axis_pair skip_validation) axis >>
  if negb defer then update false else ret tt.

(** The body of the loop of [update_button], for one pair. *)
Definition update_button_pair (skip_validation : bool) (p : Z * bool) : M unit :=
  let '(b, value) := p in
  let* ok := (if skip_validation then ret true else _validate_button_number b) in
  if ok : bool then
    let _bank := b / 8 in
    let _bit := b mod 8 in
    let* x := button_getitem _bank in
    if value then button_setitem _bank (Z.lor x (Z.shiftl 1 _bit))
    else button_setitem _bank (Z.land x (Z.lnot (Z.shiftl 1 _bit)))
  else ret tt.

(** [Joystick.update_button] on the pairs [button], with [defer] and [skip_validation] *)
Definition update_button (button : list (Z * bool)) (defer skip_validation : bool) : M unit :=
  for_each (update_button_pair skip_validation) button >>
  if negb defer then update false else ret tt.

(** ** Construction *)

(** [[int(s) for s in line.split() if s.isdigit()]] *)
Definition config_of_line (line : string) : list Z :=
  map Str.int (List.filter Str.isdigit (Str.split line)).

(** The loop over the lines of [boot_out.txt]: the first line with the
    marker decides, the lines after it are not looked at. *)
Fixpoint scan_lines (c : JoystickClass) (lines : list string)
    : (exn + unit) * JoystickClass :=
  match lines with
  | [] => (inr tt, c)
  | line :: rest =>
      if Str.contains "JoystickXL" line then
        let config := config_of_line line in
        if (length config <? 4)%nat then (inl (ValueError ""), c)
        else (inr tt,
              {| _num_axes := nth 0 config 0;
                 _num_buttons := nth 1 config 0;
                 _report_size := nth 3 config 0 |})
      else scan_lines c rest
  end.

(** [except (OSError, ValueError): raise Exception(...)] *)
Definition configuration_handler (e : exn) : exn :=
  match e with
  | OSError | ValueError _ => ConfigurationError
  | _ => e
  end.

(** The first block of [__init__]: load the configuration from the lines
    of [/boot_out.txt] ([None] when the file cannot be opened) into the
    class attributes. *)
Definition load_configuration (c : JoystickClass) (boot_out : option (list string))
    : (exn + unit) * JoystickClass :=
  let body :=
    match boot_out with
    | None => (inl OSError, c)
    | Some lines =>
        match scan_lines c lines with
        | (inr _, c') =>
            if _report_size c' =? 0 then (inl (ValueError ""), c') else (inr tt, c')
        | r => r
        end
    end in
  match body with
  | (inl e, c') => (inl (configuration_handler e), c')
  | r => r
  end.

(** [(num_buttons // 8) + bool(num_buttons % 8)]: the number of bytes that
    hold the button bits. *)
Definition button_banks (num_buttons : Z) : Z :=
  num_buttons / 8 + (if num_buttons mod 8 =? 0 then 0 else 1).

(** One round of the loops that build the states and the format:
    [states.append(v); self._format += "B"]. *)
Definition append_state (v : Z) (acc : list Z * string) : list Z * string :=
  (fst acc ++ [v], (snd acc ++ "B")%string).

(** [time.sleep(1)] in [joystick.py]: the module imports [struct] and
    [usb_hid] only, so the name [time] is unbound there and evaluating it
    raises [NameError]. *)
Definition time_sleep (seconds : Z) : M unit := raise (NameError "time").

(** [Joystick.__init__()], from the class attributes as they stand, the
    lines of [/boot_out.txt] and the active HID devices. *)
Definition __init__ (c : JoystickClass) (boot_out : option (list string))
    (devices : list Device) : exn + Joystick :=
  match load_configuration c boot_out with
  | (inl e, _) => inl e
  | (inr _, c') =>
      match _get_device devices with
      | inl e => inl e
      | inr device =>
          match bytearray (_report_size c') with
          | inl e => inl e
          | inr buffer =>
              let '(axes, fmt1) :=
                Nat.iter (Py.range (_num_axes c')) (append_state Axis.IDLE) ([], "<") in
              let '(buttons, fmt2) :=
                Nat.iter (Py.range (button_banks (_num_buttons c')))
                         (append_state 0) ([], fmt1) in
              let self :=
                {| cls := c'; _device := device; _report := buffer;
                   _last_report := buffer; _format := fmt2;
                   _axis_states := axes; _button_states := buttons |} in
              match try_except_OSError reset_all (time_sleep 1 >> reset_all) self with
              | (inl e, _) => inl e
              | (inr _, self') => inr self'
              end
          end
      end
  end.

(** ** The configuration scan as the specification words it

    The specification describes the scan as taking all maximal runs of
    digits of the line.  This definition follows those words; it is
    compared with [config_of_line] below. *)

Module SpecWords.

Definition flush_run (run : list ascii) : list Z :=
  match run with
  | [] => []
  | _ :: _ => [Str.int (string_of_list_ascii (rev run))]
  end.

Fixpoint digit_runs_from (run : list ascii) (s : string) : list Z :=
  match s with
  | EmptyString => flush_run run
  | String c s' =>
      if Str.isdigit_char c then digit_runs_from (c :: run) s'
      else flush_run run ++ digit_runs_from [] s'
  end.

Definition digit_runs (line : string) : list Z := digit_runs_from [] line.

(** The rule of the specification for a file whose only line is [line]:
    with four digit runs or more, the scan succeeds and takes the axis
    count from the first run, the button count from the second and the
    report length from the fourth. *)
Fixpoint no_digits (s : string) : bool :=
  match s with
  | EmptyString => true
  | String c s' => negb (Str.isdigit_char c) && no_digits s'
  end.

(** A token that is a number or has no digit in it at all. *)
Definition plain_token (t : string) : bool := Str.isdigit t || no_digits t.

Definition loads_digit_runs (line : string) : Prop :=
  (4 <= length (digit_runs line))%nat ->
  exists c',
    load_configuration class_defaults (Some [line]) = (inr tt, c')
    /\ _num_axes c' = nth 0 (digit_runs line) 0
    /\ _num_buttons c' = nth 1 (digit_runs line) 0
    /\ _report_size c' = nth 3 (digit_runs line) 0.

End SpecWords.

(** ** The states the engine works in *)

(** The shape the constructor gives the object and every method keeps:
    counts that are not negative, as many axis values as axes and as many
    button bytes as the buttons need, a format with one byte code per
    value, a report buffer with room for them, and byte values throughout. *)
Definition wfb (self : Joystick) : bool :=
  (0 <=? num_axes self) && (0 <=? num_buttons self)
  && (length (_axis_states self) =? Py.range (num_axes self))%nat
  && (length (_button_states self) =? Py.range (button_banks (num_buttons self)))%nat
  && bool_decide (struct.calcsize (_format self)
                  = Some (length (_axis_states self) + length (_button_states self))%nat)
  && (length (_axis_states self) + length (_button_states self)
      <=? length (_report self))%nat
  && forallb struct.is_byte (_axis_states self)
  && forallb struct.is_byte (_button_states self).

Definition wf (self : Joystick) : Prop := wfb self = true.

(** The serialization a report cycle would write into the report buffer. *)
Definition serialize (self : Joystick) : option (list Z) :=
  struct.pack_into (_format self) (_report self) 0
                   (_axis_states self ++ _button_states self).

(** The current state is the one the host has: serializing it gives the
    report that was sent last. *)
Definition transmitted (self : Joystick) : Prop :=
  serialize self = Some (_last_report self).

(** The device takes the next report: its next [send_report] does not
    raise. *)
Definition accepts (d : Device) : bool :=
  match faults d with
  | true :: _ => false
  | _ => true
  end.

(** The report of the idle state: [128] for every axis, [0] for every
    button byte, and the bytes of the buffer past them as they are. *)
Definition idle_report (self : Joystick) : list Z :=
  repeat Axis.IDLE (length (_axis_states self))
  ++ repeat 0 (length (_button_states self))
  ++ drop (length (_axis_states self) + length (_button_states self)) (_report self).

(** A pair passes [_validate_axis_value] / [_validate_button_number]. *)
Definition axis_pair_ok (c : JoystickClass) (p : Z * Z) : bool :=
  negb (_num_axes c =? 0) && (fst p <? _num_axes c)
  && (0 <=? snd p) && (snd p <=? 255).

Definition button_pair_ok (c : JoystickClass) (p : Z * bool) : bool :=
  negb (_num_buttons c =? 0) && (0 <=? fst p) && (fst p <? _num_buttons c).

(** The button byte after one update of bit [bit]. *)
Definition set_bit (value : bool) (bit x : Z) : Z :=
  if value then Z.lor x (Z.shiftl 1 bit) else Z.land x (Z.lnot (Z.shiftl 1 bit)).

(** The button bytes after the updates [pairs], applied in order. *)
Definition apply_buttons (pairs : list (Z * bool)) (l : list Z) : list Z :=
  fold_left
    (fun l p => <[Z.to_nat (fst p / 8) := set_bit (snd p) (fst p mod 8)
                                              (nth (Z.to_nat (fst p / 8)) l 0)]> l)
    pairs l.

(** The axis values after the updates [pairs] with non-negative indices,
    applied in order. *)
Definition apply_axes (n : Z) (pairs : list (Z * Z)) (l : list Z) : list Z :=
  fold_left (fun l p => <[Z.to_nat (reverse_sliders n (fst p)) := snd p]> l) pairs l.

(** ** Reading the state

    The engine has no getters; these say what the lists hold, in the terms
    of the report layout. *)

(** Button [i] is pressed: bit [i mod 8] of byte [i / 8]. *)
Definition button_pressed (l : list Z) (i : Z) : bool :=
  Z.testbit (nth (Z.to_nat (i / 8)) l 0) (i mod 8).

(** The value of the last pair of a batch that names index [i]. *)
Fixpoint last_value {A} (i : Z) (pairs : list (Z * A)) : option A :=
  match pairs with
  | [] => None
  | p :: rest =>
      match last_value i rest with
      | Some v => Some v
      | None => if fst p =? i then Some (snd p) else None
      end
  end.

(** The report buffer and the last sent report have the length the
    configuration gives. *)
Definition sized (self : Joystick) : Prop :=
  length (_report self) = Z.to_nat (_report_size (cls self))
  /\ length (_last_report self) = Z.to_nat (_report_size (cls self)).

(** What a call did to the device: the reports [new] were transmitted, in
    this order, after those transmitted before. *)
Definition transmits (self after : Joystick) (new : list (list Z)) : Prop :=
  sent (_device after) = sent (_device self) ++ new.

(** ** code.py: the batches of the polling loop *)

Module Code.

Definition GREEN_L : Z := 0.
Definition RED_L : Z := 1.
Definition BLUE_L : Z := 2.
Definition GREEN_R : Z := 3.
Definition RED_R : Z := 4.
Definition BLUE_R : Z := 5.
Definition EUPHORIA : Z := 6.
Definition MINUS : Z := 9.
Definition PLUS : Z := 10.

(** The button readings of [controller.values] that the loop uses:
    [values.turntables.left.green] and so on, and [values.buttons]. *)
Record ButtonValues : Type := {
  left_green : bool;
  left_blue : bool;
  left_red : bool;
  right_green : bool;
  right_blue : bool;
  right_red : bool;
  euphoria : bool;
  minus : bool;
  plus : bool
}.

(** The arguments of the loop's [joystick.update_button(...)]. *)
Definition button_batch (values : ButtonValues) : list (Z * bool) :=
  [ (GREEN_L, left_green values);
    (BLUE_L, left_blue values);
    (RED_L, left_red values);
    (GREEN_R, right_green values);
    (BLUE_R, right_blue values);
    (RED_R, right_red values);
    (EUPHORIA, euphoria values);
    (MINUS, minus values);
    (12, minus values);
    (PLUS, plus values);
    (11, plus values) ].

End Code.

(** ** Running the code on small inputs *)

Definition joystick_device : Device :=
  {| usage_page := 1; usage := 4; has_send_report := true; faults := []; sent := [] |}.

(** A device that is not a joystick: the keyboard (usage page 1, usage 6). *)
Definition keyboard_device : Device :=
  {| usage_page := 1; usage := 6; has_send_report := true; faults := []; sent := [] |}.

(** A joystick whose first [send_report] raises [OSError]. *)
Definition busy_device : Device :=
  {| usage_page := 1; usage := 4; has_send_report := true; faults := [true]; sent := [] |}.

Definition boot_line : string :=
  "+ Enabled JoystickXL 0.4.3 with 6 axes, 13 buttons and 0 hats for a total of 8 report bytes.".

Definition example_line : string := "... JoystickXL 6 13 0 20 ...".

Definition no_inputs : option (list string) := Some ["JoystickXL 0 0 0 5"].

Definition six_axes : option (list string) :=
  Some ["Adafruit CircuitPython"; "JoystickXL 6 13 0 8"].

Definition thirteen_axes : option (list string) :=
  Some ["JoystickXL 13 0 0 13"].

Definition ten_buttons : option (list string) :=
  Some ["JoystickXL 0 10 0 4"].

(** The object a successful construction returns; an object with nothing
    in it stands for a construction that raised. *)
Definition constructed (boot_out : option (list string)) : Joystick :=
  match __init__ class_defaults boot_out [joystick_device] with
  | inr self => self
  | inl _ =>
      {| cls := class_defaults; _device := joystick_device; _report := [];
         _last_report := []; _format := ""; _axis_states := [];
         _button_states := [] |}
  end.

(** ** Proof steps that recur *)

Ltac run :=
  unfold update_axis, update_button, update_axis_pair, update_button_pair,
    _validate_axis_value, _validate_button_number, reset_all,
    axis_setitem, button_setitem, button_getitem,
    bind, ret, raise, gets, modify in *; cbn beta iota in *.

Ltac fields :=
  cbn [set_last_report set_device set_report set_button_states set_axis_states
       cls _device _report _last_report _format _axis_states _button_states
       num_axes num_buttons fst snd] in *.

Ltac open_fields :=
  unfold set_last_report, set_device, set_report, set_button_states,
    set_axis_states, num_axes, num_buttons in *; fields.

Ltac bool_to_prop :=
  repeat match goal with
  | H : _ && _ = true |- _ => apply andb_true_iff in H; destruct H
  | H : _ || _ = false |- _ => apply orb_false_iff in H; destruct H
  | H : negb _ = true |- _ => apply negb_true_iff in H
  | H : negb _ = false |- _ => apply negb_false_iff in H
  | H : (_ <=? _) = true |- _ => apply Z.leb_le in H
  | H : (_ <=? _) = false |- _ => apply Z.leb_gt in H
  | H : (_ <? _) = true |- _ => apply Z.ltb_lt in H
  | H : (_ <? _) = false |- _ => apply Z.ltb_ge in H
  | H : (_ >? _) = true |- _ => apply Z.gtb_lt in H
  | H : (_ >? _) = false |- _ => rewrite Z.gtb_ltb in H; apply Z.ltb_ge in H
  | H : (_ =? _) = true |- _ => apply Z.eqb_eq in H
  | H : (_ =? _) = false |- _ => apply Z.eqb_neq in H
  | H : (_ =? _)%nat = true |- _ => apply Nat.eqb_eq in H
  | H : (_ <=? _)%nat = true |- _ => apply Nat.leb_le in H
  | H : bool_decide _ = true |- _ => apply bool_decide_eq_true in H
  end.

(** ** The well-formed states *)

Lemma wf_elim (self : Joystick) :
  wf self ->
  0 <= num_axes self /\ 0 <= num_buttons self
  /\ length (_axis_states self) = Z.to_nat (num_axes self)
  /\ length (_button_states self) = Z.to_nat (button_banks (num_buttons self))
  /\ struct.calcsize (_format self)
     = Some (length (_axis_states self) + length (_button_states self))%nat
  /\ (length (_axis_states self) + length (_button_states self)
      <= length (_report self))%nat
  /\ forallb struct.is_byte (_axis_states self) = true
  /\ forallb struct.is_byte (_button_states self) = true.
Proof.
  unfold wf, wfb, Py.range. intros H. bool_to_prop. tauto.
Qed.

Lemma wf_intro (self : Joystick) :
  0 <= num_axes self -> 0 <= num_buttons self ->
  length (_axis_states self) = Z.to_nat (num_axes self) ->
  length (_button_states self) = Z.to_nat (button_banks (num_buttons self)) ->
  struct.calcsize (_format self)
  = Some (length (_axis_states self) + length (_button_states self))%nat ->
  (length (_axis_states self) + length (_button_states self)
   <= length (_report self))%nat ->
  forallb struct.is_byte (_axis_states self) = true ->
  forallb struct.is_byte (_button_states self) = true ->
  wf self.
Proof.
  intros H1 H2 H3 H4 H5 H6 H7 H8. unfold wf, wfb, Py.range.
  rewrite H7, H8, !andb_true_r. repeat (apply andb_true_iff; split).
  - now apply Z.leb_le.
  - now apply Z.leb_le.
  - now apply Nat.eqb_eq.
  - now apply Nat.eqb_eq.
  - now apply bool_decide_eq_true.
  - now apply Nat.leb_le.
Qed.

Lemma forallb_insert (P : Z -> bool) (l : list Z) (k : nat) (v : Z) :
  forallb P l = true -> P v = true -> forallb P (<[k := v]> l) = true.
Proof.
  revert k. induction l as [|x l IH]; intros k Hl Hv; [exact Hl|].
  cbn in Hl. apply andb_true_iff in Hl as [Hx Hl].
  destruct k as [|k]; cbn.
  - now rewrite Hv, Hl.
  - now rewrite Hx, IH.
Qed.

Lemma forallb_repeat (P : Z -> bool) (v : Z) (n : nat) :
  P v = true -> forallb P (repeat v n) = true.
Proof.
  intros Hv. induction n as [|n IH]; cbn; [reflexivity|]. now rewrite Hv, IH.
Qed.

(** What a report cycle serializes in a well-formed state: the axis
    values in order, the button bytes in order, and the rest of the buffer
    as it was. *)
Lemma serialize_wf (self : Joystick) :
  wf self ->
  serialize self
  = Some (_axis_states self ++ _button_states self
          ++ drop (length (_axis_states self) + length (_button_states self))
                  (_report self)).
Proof.
  intros H. apply wf_elim in H as (_ & _ & _ & _ & Hf & Hr & Ha & Hb).
  unfold serialize, struct.pack_into. rewrite Hf.
  rewrite length_app, Nat.eqb_refl, forallb_app, Ha, Hb. cbn [andb].
  apply Nat.leb_le in Hr. cbn [Nat.add]. rewrite Hr.
  cbn. now rewrite <- app_assoc.
Qed.

(** ** What the report cycle leaves alone *)

Lemma update_frame (always : bool) (self : Joystick) :
  cls (update always self).2 = cls self
  /\ _axis_states (update always self).2 = _axis_states self
  /\ _button_states (update always self).2 = _button_states self
  /\ _format (update always self).2 = _format self.
Proof.
  unfold update.
  destruct (struct.pack_into _ _ _ _) as [report|]; [|now cbn].
  destruct (always || _); [|now cbn].
  destruct (send_report _ _) as [[e|u] d]; now cbn.
Qed.

(** ** Validation *)

(** The cases of [_validate_axis_value], for the proofs that follow. *)
Lemma validate_axis_value_cases (self : Joystick) (axis value : Z) :
  (num_axes self = 0 ->
   _validate_axis_value axis value self = (inl RangeError.NoAxes, self))
  /\ (num_axes self <> 0 -> axis >= num_axes self ->
      _validate_axis_value axis value self = (inl RangeError.AxisIndex, self))
  /\ (num_axes self <> 0 -> axis < num_axes self -> ~ (0 <= value <= 255) ->
      _validate_axis_value axis value self = (inl RangeError.AxisValue, self))
  /\ (_validate_axis_value axis value self = (inr true, self)
      <-> ~ num_axes self = 0 /\ ~ axis >= num_axes self /\ 0 <= value <= 255)
  /\ (_validate_axis_value axis value self).2 = self.
Proof.
  unfold num_axes, Axis.MIN, Axis.MAX. run. unfold Axis.MIN, Axis.MAX.
  destruct (_num_axes (cls self) =? 0) eqn:E0;
    [|destruct (axis + 1 >? _num_axes (cls self)) eqn:E1;
      [|destruct ((0 <=? value) && (value <=? 255)) eqn:E2]];
    cbn [negb]; bool_to_prop;
    repeat split; intros; try reflexivity; try discriminate; try lia;
    try (exfalso; intuition lia).
  all: apply andb_false_iff in E2 as [E2|E2]; bool_to_prop; lia.
Qed.

(** C8. [_validate_axis_value] raises "no axes" when there are no axes,
    else "axis out of range" when the index is not below the number of axes,
    else "value out of range" when the value is outside [0, 255]; it returns
    [True] exactly when none of the three holds, and in every case it leaves
    the object as it found it. *)
Theorem validate_axis_value_spec (self : Joystick) (axis value : Z) :
  (num_axes self = 0 ->
   _validate_axis_value axis value self = (inl RangeError.NoAxes, self))
  /\ (num_axes self <> 0 -> axis >= num_axes self ->
      _validate_axis_value axis value self = (inl RangeError.AxisIndex, self))
  /\ (num_axes self <> 0 -> axis < num_axes self -> ~ (0 <= value <= 255) ->
      _validate_axis_value axis value self = (inl RangeError.AxisValue, self))
  /\ (_validate_axis_value axis value self = (inr true, self)
      <-> ~ num_axes self = 0 /\ ~ axis >= num_axes self /\ 0 <= value <= 255)
  /\ (_validate_axis_value axis value self).2 = self.
Proof.
  unfold num_axes, Axis.MIN, Axis.MAX. run. unfold Axis.MIN, Axis.MAX.
  destruct (_num_axes (cls self) =? 0) eqn:E0;
    [|destruct (axis + 1 >? _num_axes (cls self)) eqn:E1;
      [|destruct ((0 <=? value) && (value <=? 255)) eqn:E2]];
    cbn [negb]; bool_to_prop;
    repeat split; intros; try reflexivity; try discriminate; try lia;
    try (exfalso; intuition lia).
  all: apply andb_false_iff in E2 as [E2|E2]; bool_to_prop; lia.
Qed.

Lemma validate_axis_value_spec_witness :
  (num_axes (constructed ten_buttons) = 0
   /\ _validate_axis_value 0 10 (constructed ten_buttons)
      = (inl RangeError.NoAxes, constructed ten_buttons))
  /\ (num_axes (constructed six_axes) <> 0 /\ 6 >= num_axes (constructed six_axes)
      /\ _validate_axis_value 6 10 (constructed six_axes)
         = (inl RangeError.AxisIndex, constructed six_axes))
  /\ (5 < num_axes (constructed six_axes) /\ ~ (0 <= 256 <= 255)
      /\ _validate_axis_value 5 256 (constructed six_axes)
         = (inl RangeError.AxisValue, constructed six_axes)).
Proof.
  assert (H0 : num_axes (constructed ten_buttons) = 0) by (vm_compute; reflexivity).
  assert (H1 : num_axes (constructed six_axes) <> 0) by (vm_compute; discriminate).
  assert (H2 : 6 >= num_axes (constructed six_axes)) by (vm_compute; discriminate).
  assert (H3 : 5 < num_axes (constructed six_axes)) by (vm_compute; reflexivity).
  assert (H4 : ~ (0 <= 256 <= 255)) by lia.
  split; [split; [exact H0|]|split; [split; [exact H1|split; [exact H2|]]
                                   |split; [exact H3|split; [exact H4|]]]].
  - apply (validate_axis_value_spec (constructed ten_buttons) 0 10). exact H0.
  - apply (validate_axis_value_spec (constructed six_axes) 6 10); assumption.
  - apply (validate_axis_value_spec (constructed six_axes) 5 256); assumption.
Defined.

(** ** Axis updates *)

Lemma index_in_range (len : nat) (i : Z) :
  0 <= i < Z.of_nat len -> Py.index len i = Some (Z.to_nat i).
Proof.
  intros H. unfold Py.index.
  destruct (0 <=? i) eqn:E1; destruct (i <? Z.of_nat len) eqn:E2;
    bool_to_prop; try lia; reflexivity.
Qed.

Lemma index_some_lt (len : nat) (i : Z) (k : nat) :
  Py.index len i = Some k -> (k < len)%nat.
Proof.
  unfold Py.index.
  destruct ((0 <=? i) && (i <? Z.of_nat len)) eqn:E1.
  - intros [= <-]. bool_to_prop. lia.
  - destruct ((- Z.of_nat len <=? i) && (i <? 0)) eqn:E2; [|discriminate].
    intros [= <-]. bool_to_prop. lia.
Qed.

(** The reversal keeps an index that is in range in range. *)
Lemma reverse_sliders_range (n a : Z) :
  0 <= a < n -> 0 <= reverse_sliders n a < n.
Proof.
  intros H. unfold reverse_sliders.
  destruct (n >? 7) eqn:E1; destruct (a >? 5) eqn:E2; cbn [andb];
    bool_to_prop; lia.
Qed.

(** On the slider indices [6 .. n-1] of more than seven axes the reversal
    is its own inverse, hence a bijection of them. *)
Lemma reverse_sliders_involutive (n a : Z) :
  n > 7 -> 6 <= a < n ->
  6 <= reverse_sliders n a < n
  /\ reverse_sliders n (reverse_sliders n a) = a.
Proof.
  intros Hn Ha. unfold reverse_sliders.
  assert (E1 : (n >? 7) = true) by (apply Z.gtb_lt; lia).
  assert (E2 : (a >? 5) = true) by (apply Z.gtb_lt; lia).
  assert (E3 : (n - a + 5 >? 5) = true) by (apply Z.gtb_lt; lia).
  rewrite E1, E2. cbn [andb]. rewrite E3. lia.
Qed.

Lemma validate_axis_ok (self : Joystick) (a v : Z) :
  axis_pair_ok (cls self) (a, v) = true ->
  _validate_axis_value a v self = (inr true, self).
Proof.
  intros H. apply validate_axis_value_cases.
  unfold axis_pair_ok, num_axes in *. cbn [fst snd] in H. bool_to_prop. lia.
Qed.

Lemma validate_axis_not_ok (self : Joystick) (a v : Z) :
  axis_pair_ok (cls self) (a, v) = false ->
  exists msg, _validate_axis_value a v self = (inl (ValueError msg), self).
Proof.
  intros H. unfold axis_pair_ok in H. cbn [fst snd] in H.
  destruct (validate_axis_value_cases self a v) as (H0 & H1 & H2 & _).
  unfold num_axes in *.
  destruct (Z.eq_dec (_num_axes (cls self)) 0) as [E0|E0];
    [eexists; apply H0; exact E0|].
  destruct (Z_lt_dec a (_num_axes (cls self))) as [E1|E1];
    [|eexists; apply H1; [exact E0|lia]].
  eexists; apply H2; [exact E0|exact E1|]. intros Hv.
  apply Z.eqb_neq in E0. apply Z.ltb_lt in E1. rewrite E0, E1 in H. cbn in H.
  apply andb_false_iff in H as [H|H]; bool_to_prop; lia.
Qed.

(** One pair that is validated (or taken unvalidated) and whose index
    names a position of the list: the value is written there. *)
Lemma update_axis_pair_writes (self : Joystick) (skip : bool) (a v : Z) (k : nat) :
  skip = true \/ axis_pair_ok (cls self) (a, v) = true ->
  Py.index (length (_axis_states self)) (reverse_sliders (num_axes self) a) = Some k ->
  update_axis_pair skip (a, v) self
  = (inr tt, set_axis_states (<[k := v]> (_axis_states self)) self).
Proof.
  intros Hok Hk. unfold update_axis_pair, bind.
  assert (Hv : (if skip then ret true else _validate_axis_value a v) self
               = (inr true, self)).
  { destruct skip; [reflexivity|]. destruct Hok as [?|Hok]; [discriminate|].
    now apply validate_axis_ok. }
  rewrite Hv. unfold gets, axis_setitem, Py.setitem. now rewrite Hk.
Qed.

Lemma update_axis_states (pairs : list (Z * Z)) (defer skip : bool) (self : Joystick) :
  _axis_states (update_axis pairs defer skip self).2
  = _axis_states (for_each (update_axis_pair skip) pairs self).2.
Proof.
  unfold update_axis, bind.
  destruct (for_each _ pairs self) as [[e|u] s]; [reflexivity|].
  destruct defer; cbn [negb]; [reflexivity|]. apply update_frame.
Qed.

(** C2. In a call of [update_axis], a pair with a valid index and value is
    written at position [num_axes - index + 5] when there are more than
    seven axes and the index is above 5, and at its own index when the index
    is one of 0..5; the position is inside the list of axis values. *)
Theorem update_axis_slot (self : Joystick) (a v : Z) (defer skip : bool) :
  wf self -> a < num_axes self -> 0 <= v <= 255 ->
  (num_axes self > 7 -> a > 5 ->
   (Z.to_nat (num_axes self - a + 5) < length (_axis_states self))%nat
   /\ _axis_states (update_axis [(a, v)] defer skip self).2
      = <[Z.to_nat (num_axes self - a + 5) := v]> (_axis_states self))
  /\ (0 <= a <= 5 ->
      (Z.to_nat a < length (_axis_states self))%nat
      /\ _axis_states (update_axis [(a, v)] defer skip self).2
         = <[Z.to_nat a := v]> (_axis_states self)).
Proof.
  intros Hwf Ha Hv. apply wf_elim in Hwf as (Hn & _ & Hlen & _).
  assert (Hrun : 0 <= a -> forall k,
    Py.index (length (_axis_states self)) (reverse_sliders (num_axes self) a) = Some k ->
    _axis_states (update_axis [(a, v)] defer skip self).2
    = <[k := v]> (_axis_states self)).
  { intros H0 k Hk.
    assert (Hok : axis_pair_ok (cls self) (a, v) = true).
    { unfold axis_pair_ok, num_axes in *. cbn [fst snd].
      repeat (apply andb_true_iff; split); try apply negb_true_iff;
        [apply Z.eqb_neq|apply Z.ltb_lt|apply Z.leb_le|apply Z.leb_le]; lia. }
    rewrite update_axis_states. cbn [for_each]. unfold bind.
    rewrite (update_axis_pair_writes self skip a v k); auto. }
  split.
  - intros H7 H5. split; [lia|]. apply Hrun; [lia|].
    unfold reverse_sliders.
    replace (num_axes self >? 7) with true by (symmetry; apply Z.gtb_lt; lia).
    replace (a >? 5) with true by (symmetry; apply Z.gtb_lt; lia).
    cbn [andb]. apply index_in_range. lia.
  - intros H05. split; [lia|]. apply Hrun; [lia|].
    unfold reverse_sliders.
    replace (a >? 5) with false by (symmetry; rewrite Z.gtb_ltb; apply Z.ltb_ge; lia).
    rewrite andb_false_r. apply index_in_range. lia.
Qed.

Lemma update_axis_slot_witness :
  wf (constructed thirteen_axes)
  /\ 12 < num_axes (constructed thirteen_axes) /\ 0 <= 200 <= 255
  /\ num_axes (constructed thirteen_axes) > 7 /\ 12 > 5
  /\ _axis_states (update_axis [(12, 200)] false false (constructed thirteen_axes)).2
     = <[Z.to_nat (num_axes (constructed thirteen_axes) - 12 + 5) := 200]>
         (_axis_states (constructed thirteen_axes))
  /\ Z.to_nat (num_axes (constructed thirteen_axes) - 12 + 5) = 6%nat
  /\ 3 < num_axes (constructed thirteen_axes) /\ 0 <= 3 <= 5
  /\ _axis_states (update_axis [(3, 200)] false false (constructed thirteen_axes)).2
     = <[Z.to_nat 3 := 200]> (_axis_states (constructed thirteen_axes)).
Proof.
  assert (Hwf : wf (constructed thirteen_axes)) by (vm_compute; reflexivity).
  assert (Ha : 12 < num_axes (constructed thirteen_axes)) by (vm_compute; reflexivity).
  assert (Hv : 0 <= 200 <= 255) by lia.
  assert (H7 : num_axes (constructed thirteen_axes) > 7) by (vm_compute; reflexivity).
  assert (H5 : 12 > 5) by lia.
  split; [exact Hwf|]. split; [exact Ha|]. split; [exact Hv|].
  assert (Ha3 : 3 < num_axes (constructed thirteen_axes)) by (vm_compute; reflexivity).
  assert (H35 : 0 <= 3 <= 5) by lia.
  split; [exact H7|]. split; [exact H5|]. split; [|split; [|split; [|split]]].
  - apply (update_axis_slot (constructed thirteen_axes) 12 200 false false
             Hwf Ha Hv); assumption.
  - vm_compute; reflexivity.
  - exact Ha3.
  - exact H35.
  - apply (update_axis_slot (constructed thirteen_axes) 3 200 false false
             Hwf Ha3 Hv); assumption.
Defined.

(** ** Button updates *)

(** The bit a button update touches, and no other. *)
Lemma set_bit_spec (value : bool) (bit x i : Z) :
  0 <= bit -> 0 <= i ->
  Z.testbit (set_bit value bit x) i = if i =? bit then value else Z.testbit x i.
Proof.
  intros Hbit Hi. unfold set_bit. rewrite Z.shiftl_1_l.
  destruct value.
  - rewrite Z.lor_spec, Z.pow2_bits_eqb by assumption.
    rewrite (Z.eqb_sym bit i). destruct (i =? bit); [apply orb_true_r|apply orb_false_r].
  - rewrite Z.land_spec, Z.lnot_spec, Z.pow2_bits_eqb by assumption.
    rewrite (Z.eqb_sym bit i). destruct (i =? bit); [apply andb_false_r|apply andb_true_r].
Qed.

(** A button below [num_buttons] has its byte among the button bytes. *)
Lemma bank_in_range (nb b : Z) :
  0 <= b < nb -> 0 <= b / 8 < button_banks nb.
Proof.
  intros H. unfold button_banks.
  destruct (nb mod 8 =? 0) eqn:E; bool_to_prop;
    Z.to_euclidean_division_equations; lia.
Qed.

Lemma validate_button_ok (self : Joystick) (b : Z) :
  0 <= b < num_buttons self ->
  _validate_button_number b self = (inr true, self).
Proof.
  intros H. unfold num_buttons in H. run.
  replace (_num_buttons (cls self) =? 0) with false by (symmetry; apply Z.eqb_neq; lia).
  replace (0 <=? b) with true by (symmetry; apply Z.leb_le; lia).
  replace (b <=? _num_buttons (cls self) - 1) with true by (symmetry; apply Z.leb_le; lia).
  reflexivity.
Qed.

Lemma validate_button_not_ok (self : Joystick) (b : Z) :
  ~ 0 <= b < num_buttons self ->
  _validate_button_number b self
  = (inl (if num_buttons self =? 0 then RangeError.NoButtons
          else RangeError.ButtonIndex), self).
Proof.
  intros H. unfold num_buttons in *. run.
  destruct (_num_buttons (cls self) =? 0) eqn:E0; [reflexivity|].
  destruct ((0 <=? b) && (b <=? _num_buttons (cls self) - 1)) eqn:E1;
    [|reflexivity].
  bool_to_prop. lia.
Qed.

Lemma button_pair_ok_iff (c : JoystickClass) (p : Z * bool) :
  button_pair_ok c p = true <-> 0 <= fst p < _num_buttons c.
Proof.
  unfold button_pair_ok. split.
  - intros H. bool_to_prop. lia.
  - intros H. repeat (apply andb_true_iff; split); try apply negb_true_iff;
      [apply Z.eqb_neq|apply Z.leb_le|apply Z.ltb_lt]; lia.
Qed.

(** One pair whose button exists: its bit is set or cleared in its byte. *)
Lemma update_button_pair_sets (self : Joystick) (skip : bool) (b : Z) (value : bool) :
  length (_button_states self) = Z.to_nat (button_banks (num_buttons self)) ->
  0 <= b < num_buttons self ->
  update_button_pair skip (b, value) self
  = (inr tt,
     set_button_states
       (<[Z.to_nat (b / 8) := set_bit value (b mod 8)
                                 (nth (Z.to_nat (b / 8)) (_button_states self) 0)]>
          (_button_states self)) self).
Proof.
  intros Hlen Hb. pose proof (bank_in_range _ _ Hb) as Hbank.
  unfold update_button_pair, bind.
  assert (Hv : (if skip then ret true else _validate_button_number b) self
               = (inr true, self)).
  { destruct skip; [reflexivity|]. now apply validate_button_ok. }
  rewrite Hv.
  assert (Hi : Py.index (length (_button_states self)) (b / 8)
               = Some (Z.to_nat (b / 8))).
  { apply index_in_range. lia. }
  assert (Hlt : (Z.to_nat (b / 8) < length (_button_states self))%nat) by lia.
  destruct (lookup_lt_is_Some_2 _ _ Hlt) as [x Hx].
  unfold button_getitem, Py.getitem. rewrite Hi, Hx.
  rewrite (nth_lookup_Some _ _ 0 x Hx).
  unfold set_bit.
  destruct value; unfold button_setitem, Py.setitem; cbn [_button_states];
    rewrite Hi; reflexivity.
Qed.

Lemma update_button_states (pairs : list (Z * bool)) (defer skip : bool) (self : Joystick) :
  _button_states (update_button pairs defer skip self).2
  = _button_states (for_each (update_button_pair skip) pairs self).2.
Proof.
  unfold update_button, bind.
  destruct (for_each _ pairs self) as [[e|u] s]; [reflexivity|].
  destruct defer; cbn [negb]; [reflexivity|]. apply update_frame.
Qed.

(** C7. A call of [update_button] with one pair for an existing button [b]
    gives bit [b mod 8] of byte [b / 8] of the button bytes the value of the
    pair (set when pressed, cleared when released) and changes no other bit
    and no other byte. *)
Theorem update_button_bit (self : Joystick) (b : Z) (value defer skip : bool) :
  wf self -> 0 <= b < num_buttons self ->
  (Z.to_nat (b / 8) < length (_button_states self))%nat
  /\ length (_button_states (update_button [(b, value)] defer skip self).2)
     = length (_button_states self)
  /\ (forall i : Z, 0 <= i ->
      Z.testbit (nth (Z.to_nat (b / 8))
                     (_button_states (update_button [(b, value)] defer skip self).2) 0) i
      = if i =? b mod 8 then value
        else Z.testbit (nth (Z.to_nat (b / 8)) (_button_states self) 0) i)
  /\ (forall k : nat, k <> Z.to_nat (b / 8) ->
      _button_states (update_button [(b, value)] defer skip self).2 !! k
      = _button_states self !! k).
Proof.
  intros Hwf Hb. apply wf_elim in Hwf as (_ & _ & _ & Hlen & _).
  pose proof (bank_in_range _ _ Hb) as Hbank.
  assert (Hlt : (Z.to_nat (b / 8) < length (_button_states self))%nat) by lia.
  rewrite update_button_states. cbn [for_each]. unfold bind.
  rewrite (update_button_pair_sets self skip b value Hlen Hb).
  cbn [ret snd _button_states set_button_states].
  split; [exact Hlt|]. split; [apply length_insert|]. split.
  - intros i Hi.
    rewrite (nth_lookup_Some _ _ 0 _ (list_lookup_insert_eq _ _ _ Hlt)).
    apply set_bit_spec; [|exact Hi].
    apply Z.mod_pos_bound. lia.
  - intros k Hk. apply list_lookup_insert_ne. congruence.
Qed.

Lemma update_button_bit_witness :
  wf (constructed six_axes) /\ 0 <= 8 < num_buttons (constructed six_axes)
  /\ Z.testbit (nth (Z.to_nat (8 / 8))
        (_button_states (update_button [(8, true)] false false (constructed six_axes)).2)
        0) 0 = true
  /\ _button_states (update_button [(8, true)] false false (constructed six_axes)).2
       !! 0%nat
     = _button_states (constructed six_axes) !! 0%nat.
Proof.
  assert (Hwf : wf (constructed six_axes)) by (vm_compute; reflexivity).
  assert (Hb : 0 <= 8 < num_buttons (constructed six_axes))
    by (vm_compute; split; [discriminate|reflexivity]).
  split; [exact Hwf|]. split; [exact Hb|].
  destruct (update_button_bit (constructed six_axes) 8 true false false Hwf Hb)
    as (_ & _ & Hbit & Hother).
  split.
  - apply (Hbit 0). lia.
  - apply (Hother 0%nat). vm_compute. discriminate.
Defined.

(** ** Batches: the loop over the pairs *)

Lemma for_each_app {A} (body : A -> M unit) (l1 l2 : list A) (self : Joystick) :
  for_each body (l1 ++ l2) self = (for_each body l1 >> for_each body l2) self.
Proof.
  revert self. induction l1 as [|x l1 IH]; intros self; cbn [for_each app].
  - reflexivity.
  - unfold bind in *. destruct (body x self) as [[e|u] s]; [reflexivity|].
    apply IH.
Qed.

(** A loop whose body only ever replaces one part of the object leaves
    the rest of it alone, however it ends. *)
Lemma for_each_touches {A} (set : list Z -> Joystick -> Joystick)
    (body : A -> M unit) (l : list A) (self : Joystick) :
  (forall l1 l2 s, set l2 (set l1 s) = set l2 s) ->
  (forall x s, (body x s).2 = s \/ exists l1, (body x s).2 = set l1 s) ->
  (for_each body l self).2 = self
  \/ exists l1, (for_each body l self).2 = set l1 self.
Proof.
  intros Hset Hbody. revert self. induction l as [|x l IH]; intros self.
  - now left.
  - cbn [for_each]. unfold bind.
    destruct (body x self) as [[e|u] s] eqn:E.
    + specialize (Hbody x self). now rewrite E in Hbody.
    + specialize (Hbody x self). rewrite E in Hbody. cbn [snd] in Hbody.
      destruct (IH s) as [IH'|[l2 IH']]; rewrite IH'.
      * exact Hbody.
      * right. destruct Hbody as [->|[l1 ->]]; [now exists l2|].
        exists l2. apply Hset.
Qed.

Lemma update_axis_pair_touches (skip : bool) (p : Z * Z) (self : Joystick) :
  (update_axis_pair skip p self).2 = self
  \/ exists l, (update_axis_pair skip p self).2 = set_axis_states l self.
Proof.
  destruct p as [a v]. unfold update_axis_pair, bind.
  destruct ((if skip then ret true else _validate_axis_value a v) self)
    as [[e|ok] s] eqn:E.
  - left. cbn. destruct skip; [discriminate|].
    pose proof (validate_axis_value_cases self a v) as (_ & _ & _ & _ & H).
    now rewrite E in H.
  - assert (s = self) as ->.
    { destruct skip; [now inversion E|].
      pose proof (validate_axis_value_cases self a v) as (_ & _ & _ & _ & H).
      now rewrite E in H. }
    destruct ok; [|now left].
    unfold gets, axis_setitem.
    destruct (Py.setitem _ _ _) as [l|]; [right; now exists l|now left].
Qed.

Lemma validate_button_pure (b : Z) (self : Joystick) :
  (_validate_button_number b self).2 = self.
Proof.
  run. destruct (_ =? 0); [reflexivity|]. now destruct (negb _).
Qed.

Lemma update_button_pair_touches (skip : bool) (p : Z * bool) (self : Joystick) :
  (update_button_pair skip p self).2 = self
  \/ exists l, (update_button_pair skip p self).2 = set_button_states l self.
Proof.
  destruct p as [b v]. unfold update_button_pair, bind.
  destruct ((if skip then ret true else _validate_button_number b) self)
    as [[e|ok] s] eqn:E.
  - left. cbn. destruct skip; [discriminate|].
    pose proof (validate_button_pure b self) as H. now rewrite E in H.
  - assert (s = self) as ->.
    { destruct skip; [now inversion E|].
      pose proof (validate_button_pure b self) as H. now rewrite E in H. }
    destruct ok; [|now left].
    unfold button_getitem.
    destruct (Py.getitem _ _) as [x|]; [|now left].
    destruct v; unfold button_setitem;
      (destruct (Py.setitem _ _ _) as [l|]; [right; now exists l|now left]).
Qed.

(** A batch that is validated and holds a pair that does not pass raises,
    at that pair or before it. *)
Lemma axis_loop_raises (pairs : list (Z * Z)) (self : Joystick) :
  existsb (fun p => negb (axis_pair_ok (cls self) p)) pairs = true ->
  exists e, (for_each (update_axis_pair false) pairs self).1 = inl e.
Proof.
  revert self. induction pairs as [|[a v] pairs IH]; intros self H; [discriminate|].
  cbn [existsb] in H. cbn [for_each]. unfold bind.
  destruct (update_axis_pair false (a, v) self) as [[e|u] s] eqn:E;
    [now exists e|].
  destruct (axis_pair_ok (cls self) (a, v)) eqn:Hok.
  - cbn in H. apply IH.
    destruct (update_axis_pair_touches false (a, v) self) as [Hs|[l Hs]];
      rewrite E in Hs; cbn in Hs; subst s; exact H.
  - exfalso. destruct (validate_axis_not_ok self a v Hok) as [msg Hv].
    unfold update_axis_pair, bind in E. rewrite Hv in E. discriminate.
Qed.

Lemma button_loop_raises (pairs : list (Z * bool)) (self : Joystick) :
  existsb (fun p => negb (button_pair_ok (cls self) p)) pairs = true ->
  exists e, (for_each (update_button_pair false) pairs self).1 = inl e.
Proof.
  revert self. induction pairs as [|[b v] pairs IH]; intros self H; [discriminate|].
  cbn [existsb] in H. cbn [for_each]. unfold bind.
  destruct (update_button_pair false (b, v) self) as [[e|u] s] eqn:E;
    [now exists e|].
  destruct (button_pair_ok (cls self) (b, v)) eqn:Hok.
  - cbn in H. apply IH.
    destruct (update_button_pair_touches false (b, v) self) as [Hs|[l Hs]];
      rewrite E in Hs; cbn in Hs; subst s; exact H.
  - exfalso.
    assert (Hb : ~ 0 <= b < num_buttons self).
    { intros Hb. apply (button_pair_ok_iff (cls self) (b, v)) in Hb. congruence. }
    unfold update_button_pair, bind in E.
    rewrite (validate_button_not_ok self b Hb) in E. discriminate.
Qed.

(** C9. A validated call of [update_axis] or [update_button] in which some
    pair does not pass validation raises without running the report cycle:
    the report buffer, the last sent report and the device (and with it the
    list of transmitted reports) are what they were before the call, also
    when [defer] is false. *)
Theorem failed_batch_runs_no_report_cycle (self : Joystick) (defer : bool) :
  (forall axis : list (Z * Z),
     existsb (fun p => negb (axis_pair_ok (cls self) p)) axis = true ->
     (exists e, (update_axis axis defer false self).1 = inl e)
     /\ _report (update_axis axis defer false self).2 = _report self
     /\ _last_report (update_axis axis defer false self).2 = _last_report self
     /\ _device (update_axis axis defer false self).2 = _device self)
  /\ (forall button : list (Z * bool),
     existsb (fun p => negb (button_pair_ok (cls self) p)) button = true ->
     (exists e, (update_button button defer false self).1 = inl e)
     /\ _report (update_button button defer false self).2 = _report self
     /\ _last_report (update_button button defer false self).2 = _last_report self
     /\ _device (update_button button defer false self).2 = _device self).
Proof.
  split.
  - intros axis H.
    destruct (axis_loop_raises axis self H) as [e He].
    pose proof (for_each_touches set_axis_states (update_axis_pair false) axis self
                  (fun _ _ _ => eq_refl) (update_axis_pair_touches false)) as Ht.
    unfold update_axis, bind.
    destruct (for_each (update_axis_pair false) axis self) as [[e'|u] s];
      [|discriminate].
    cbn [fst snd] in *. split; [now exists e'|].
    destruct Ht as [->|[l ->]]; now cbn.
  - intros button H.
    destruct (button_loop_raises button self H) as [e He].
    pose proof (for_each_touches set_button_states (update_button_pair false) button self
                  (fun _ _ _ => eq_refl) (update_button_pair_touches false)) as Ht.
    unfold update_button, bind.
    destruct (for_each (update_button_pair false) button self) as [[e'|u] s];
      [|discriminate].
    cbn [fst snd] in *. split; [now exists e'|].
    destruct Ht as [->|[l ->]]; now cbn.
Qed.

Lemma failed_batch_runs_no_report_cycle_witness :
  existsb (fun p => negb (axis_pair_ok (cls (constructed six_axes)) p))
          [(0, 7); (6, 1)] = true
  /\ (exists e, (update_axis [(0, 7); (6, 1)] false false (constructed six_axes)).1 = inl e)
  /\ _device (update_axis [(0, 7); (6, 1)] false false (constructed six_axes)).2
     = _device (constructed six_axes)
  /\ existsb (fun p => negb (button_pair_ok (cls (constructed ten_buttons)) p))
             [(0, true); (999, true)] = true
  /\ (exists e, (update_button [(0, true); (999, true)] false false
                   (constructed ten_buttons)).1 = inl e)
  /\ _last_report (update_button [(0, true); (999, true)] false false
                     (constructed ten_buttons)).2
     = _last_report (constructed ten_buttons).
Proof.
  assert (H : existsb (fun p => negb (axis_pair_ok (cls (constructed six_axes)) p))
                      [(0, 7); (6, 1)] = true) by (vm_compute; reflexivity).
  split; [exact H|].
  destruct (failed_batch_runs_no_report_cycle (constructed six_axes) false) as [Haxis _].
  destruct (Haxis [(0, 7); (6, 1)] H) as (He & _ & _ & Hd).
  split; [exact He|]. split; [exact Hd|].
  assert (H' : existsb (fun p => negb (button_pair_ok (cls (constructed ten_buttons)) p))
                       [(0, true); (999, true)] = true) by (vm_compute; reflexivity).
  split; [exact H'|].
  destruct (failed_batch_runs_no_report_cycle (constructed ten_buttons) false)
    as [_ Hbutton].
  destruct (Hbutton [(0, true); (999, true)] H') as (He' & _ & Hl & _).
  split; [exact He'|exact Hl].
Defined.

(** ** The report cycle *)

Lemma update_run (always : bool) (self : Joystick) (report : list Z) :
  serialize self = Some report ->
  update always self
  = if always || negb (bool_decide (_last_report self = report))
    then match send_report (_device self) report with
         | (inr _, d) =>
             (inr tt, set_last_report report (set_device d (set_report report self)))
         | (inl e, d) => (inl e, set_device d (set_report report self))
         end
    else (inr tt, set_report report self).
Proof.
  unfold serialize, update. intros ->. reflexivity.
Qed.

Lemma send_report_accepted (d : Device) (report : list Z) :
  accepts d = true ->
  (send_report d report).1 = inr tt
  /\ sent (send_report d report).2 = sent d ++ [report].
Proof.
  unfold accepts, send_report.
  destruct (faults d) as [|[|] fs]; [now cbn|discriminate|now cbn].
Qed.

Lemma set_axis_states_same (self : Joystick) :
  set_axis_states (_axis_states self) self = self.
Proof. now destruct self. Qed.

Lemma set_button_states_same (self : Joystick) :
  set_button_states (_button_states self) self = self.
Proof. now destruct self. Qed.

(** C3. A report cycle on a device that takes the report transmits the
    serialized report exactly when it is forced or the serialization
    differs from the last sent report, and a transmission makes the
    serialization the last sent report; otherwise device and last sent
    report stay as they are.  Hence a call of [update_axis] with [defer]
    false that writes into an axis the value it holds, in a state the host
    already has, returns without giving the device anything. *)
Theorem report_cycle_sends_iff_forced_or_changed (self : Joystick) :
  (forall (always : bool) (report : list Z),
     serialize self = Some report -> accepts (_device self) = true ->
     (update always self).1 = inr tt
     /\ _report (update always self).2 = report
     /\ (always = true \/ report <> _last_report self ->
         sent (_device (update always self).2) = sent (_device self) ++ [report]
         /\ _last_report (update always self).2 = report)
     /\ (always = false -> report = _last_report self ->
         _device (update always self).2 = _device self
         /\ _last_report (update always self).2 = _last_report self))
  /\ (forall (a v : Z) (skip : bool),
     transmitted self ->
     skip = true \/ axis_pair_ok (cls self) (a, v) = true ->
     Py.getitem (_axis_states self) (reverse_sliders (num_axes self) a) = Some v ->
     (update_axis [(a, v)] false skip self).1 = inr tt
     /\ _device (update_axis [(a, v)] false skip self).2 = _device self).
Proof.
  split.
  - intros always report Hser Hacc. rewrite (update_run always self report Hser).
    destruct (send_report_accepted (_device self) report Hacc) as [Hok Hsent].
    destruct (send_report (_device self) report) as [[e|u] d]; [discriminate|].
    cbn [fst snd] in *.
    destruct always; cbn [orb].
    + split; [reflexivity|]. split; [reflexivity|]. split.
      * intros _. split; [exact Hsent|reflexivity].
      * discriminate.
    + destruct (bool_decide (_last_report self = report)) eqn:E; cbn [negb].
      * apply bool_decide_eq_true in E.
        split; [reflexivity|]. split; [reflexivity|]. split.
        -- intros [?|Hne]; [discriminate|congruence].
        -- intros _ _. split; reflexivity.
      * apply bool_decide_eq_false in E.
        split; [reflexivity|]. split; [reflexivity|]. split.
        -- intros _. split; [exact Hsent|reflexivity].
        -- intros _ Heq. congruence.
  - intros a v skip Hsent Hok Hget.
    unfold Py.getitem in Hget.
    destruct (Py.index _ _) as [k|] eqn:Hk; [|discriminate].
    unfold update_axis. cbn [for_each]. unfold bind.
    rewrite (update_axis_pair_writes self skip a v k Hok Hk).
    rewrite (list_insert_id _ _ _ Hget), set_axis_states_same.
    cbn [ret negb]. rewrite (update_run false self _ Hsent).
    cbn [orb]. rewrite bool_decide_eq_true_2 by reflexivity. now cbn.
Qed.

Lemma report_cycle_sends_iff_forced_or_changed_witness :
  transmitted (constructed six_axes)
  /\ axis_pair_ok (cls (constructed six_axes)) (2, 128) = true
  /\ Py.getitem (_axis_states (constructed six_axes))
       (reverse_sliders (num_axes (constructed six_axes)) 2) = Some 128
  /\ (update_axis [(2, 128)] false false (constructed six_axes)).1 = inr tt
  /\ _device (update_axis [(2, 128)] false false (constructed six_axes)).2
     = _device (constructed six_axes)
  /\ serialize (constructed six_axes) = Some [128; 128; 128; 128; 128; 128; 0; 0]
  /\ accepts (_device (constructed six_axes)) = true
  /\ sent (_device (update true (constructed six_axes)).2)
     = sent (_device (constructed six_axes)) ++ [[128; 128; 128; 128; 128; 128; 0; 0]]
  /\ _device (update false (constructed six_axes)).2 = _device (constructed six_axes).
Proof.
  assert (Ht : transmitted (constructed six_axes)) by (vm_compute; reflexivity).
  assert (Hok : axis_pair_ok (cls (constructed six_axes)) (2, 128) = true)
    by (vm_compute; reflexivity).
  assert (Hget : Py.getitem (_axis_states (constructed six_axes))
            (reverse_sliders (num_axes (constructed six_axes)) 2) = Some 128)
    by (vm_compute; reflexivity).
  split; [exact Ht|]. split; [exact Hok|]. split; [exact Hget|].
  destruct (report_cycle_sends_iff_forced_or_changed (constructed six_axes))
    as [Hcycle Hsame].
  split; [apply (Hsame 2 128 false Ht (or_intror Hok) Hget)|].
  split; [apply (Hsame 2 128 false Ht (or_intror Hok) Hget)|].
  assert (Hser : serialize (constructed six_axes)
                 = Some [128; 128; 128; 128; 128; 128; 0; 0])
    by (vm_compute; reflexivity).
  assert (Hacc : accepts (_device (constructed six_axes)) = true)
    by (vm_compute; reflexivity).
  split; [exact Hser|]. split; [exact Hacc|]. split.
  - apply (Hcycle true _ Hser Hacc). left. reflexivity.
  - apply (Hcycle false _ Hser Hacc); [reflexivity|vm_compute; reflexivity].
Defined.

(** ** Resetting *)

(** The two loops of [reset_all] have the same shape: assign one value at
    every index of a list held by the object. *)
Section Fill.
Variable get : Joystick -> list Z.
Variable set : list Z -> Joystick -> Joystick.
Variable setitem : Z -> Z -> M unit.
Hypothesis setitem_eq : forall i v s,
  setitem i v s = match Py.setitem (get s) i v with
                  | Some l => (inr tt, set l s)
                  | None => (inl IndexError, s)
                  end.
Hypothesis get_set : forall l s, get (set l s) = l.
Hypothesis set_set : forall l1 l2 s, set l2 (set l1 s) = set l2 s.
Hypothesis set_get : forall s, set (get s) s = s.

Lemma fill_from (v : Z) (l2 l1 : list Z) (self : Joystick) :
  get self = l1 ++ l2 ->
  for_each (fun i => setitem i v) (map Z.of_nat (seq (length l1) (length l2))) self
  = (inr tt, set (l1 ++ repeat v (length l2)) self).
Proof.
  revert l1 self. induction l2 as [|x l2 IH]; intros l1 self Hget.
  - cbn. rewrite app_nil_r in *. now rewrite <- Hget, set_get.
  - cbn [length seq map for_each repeat]. unfold bind.
    rewrite setitem_eq. unfold Py.setitem.
    rewrite index_in_range by (rewrite Hget, length_app; cbn; lia).
    rewrite Nat2Z.id, Hget.
    rewrite insert_app_r_alt, Nat.sub_diag by lia. cbn [insert list_insert].
    specialize (IH (l1 ++ [v]) (set (l1 ++ v :: l2) self)).
    rewrite length_app in IH. cbn [length] in IH.
    replace (length l1 + 1)%nat with (S (length l1)) in IH by lia.
    rewrite IH by (rewrite get_set, <- app_assoc; reflexivity).
    now rewrite set_set, <- app_assoc.
Qed.

Lemma fill_all (v : Z) (self : Joystick) :
  for_each (fun i => setitem i v) (range_indices (length (get self))) self
  = (inr tt, set (repeat v (length (get self))) self).
Proof.
  apply (fill_from v (get self) [] self). reflexivity.
Qed.
End Fill.

(** The two loops of [reset_all] run through when there are as many axis
    values as axes; the report cycle follows. *)
Lemma reset_all_loops (self : Joystick) :
  length (_axis_states self) = Z.to_nat (num_axes self) ->
  reset_all self
  = update true (set_button_states (repeat 0 (length (_button_states self)))
                   (set_axis_states (repeat Axis.IDLE (length (_axis_states self)))
                      self)).
Proof.
  intros Hlen.
  unfold reset_all, bind, gets. unfold Py.range. rewrite <- Hlen.
  rewrite (fill_all _axis_states set_axis_states axis_setitem)
    by (intros; reflexivity || now destruct s).
  cbn beta iota.
  pose proof (fill_all _button_states set_button_states button_setitem) as Hfill.
  rewrite Hfill by (intros; reflexivity || now destruct s).
  reflexivity.
Qed.

Lemma reset_all_run (self : Joystick) :
  wf self ->
  reset_all self
  = update true (set_button_states (repeat 0 (length (_button_states self)))
                   (set_axis_states (repeat Axis.IDLE (length (_axis_states self)))
                      self)).
Proof.
  intros Hwf. apply wf_elim in Hwf as (_ & _ & Hlen & _).
  now apply reset_all_loops.
Qed.

Lemma reset_state_wf (self : Joystick) :
  wf self ->
  wf (set_button_states (repeat 0 (length (_button_states self)))
        (set_axis_states (repeat Axis.IDLE (length (_axis_states self))) self)).
Proof.
  intros Hwf. apply wf_elim in Hwf as (H1 & H2 & H3 & H4 & H5 & H6 & _ & _).
  apply wf_intro; cbn [set_button_states set_axis_states _axis_states
    _button_states _format _report cls num_axes num_buttons];
    rewrite ?repeat_length; try assumption;
    now apply forallb_repeat.
Qed.

(** [reset_all] on a device that takes the report: every axis at [128],
    every button byte at [0], and the idle report transmitted, whatever was
    sent last. *)
Lemma reset_all_sends_idle (self : Joystick) :
  wf self -> accepts (_device self) = true ->
  (reset_all self).1 = inr tt
  /\ sent (_device (reset_all self).2) = sent (_device self) ++ [idle_report self]
  /\ _axis_states (reset_all self).2 = repeat Axis.IDLE (length (_axis_states self))
  /\ _button_states (reset_all self).2 = repeat 0 (length (_button_states self))
  /\ _report (reset_all self).2 = idle_report self
  /\ _last_report (reset_all self).2 = idle_report self
  /\ faults (_device (reset_all self).2) = tl (faults (_device self))
  /\ wf (reset_all self).2.
Proof.
  intros Hwf Hacc. rewrite (reset_all_run self Hwf).
  pose proof (reset_state_wf self Hwf) as Hwf0.
  pose proof (serialize_wf _ Hwf0) as Hser.
  cbn [set_button_states set_axis_states _axis_states _button_states _report] in Hser.
  rewrite !repeat_length in Hser. fold (idle_report self) in Hser.
  rewrite (update_run true _ _ Hser). cbn [orb].
  cbn [set_button_states set_axis_states _device].
  unfold accepts in Hacc. unfold send_report.
  destruct (faults (_device self)) as [|[|] fs] eqn:Ef; [|discriminate|].
  all: fields; cbn [sent faults tl].
  all: repeat (split; [reflexivity|]).
  all: apply wf_elim in Hwf0 as (H1 & H2 & H3 & H4 & H5 & H6 & H7 & H8).
  all: fields.
  all: apply wf_intro; fields; try assumption.
  all: unfold idle_report; rewrite !length_app, !repeat_length, length_drop;
       rewrite !repeat_length in H6; lia.
Qed.

Lemma idle_report_after_reset (self : Joystick) :
  wf self -> accepts (_device self) = true ->
  idle_report (reset_all self).2 = idle_report self.
Proof.
  intros Hwf Hacc.
  destruct (reset_all_sends_idle self Hwf Hacc) as (_ & _ & Ha & Hb & Hr & _).
  unfold idle_report at 1. rewrite Ha, Hb, Hr, !repeat_length.
  unfold idle_report. f_equal. f_equal.
  rewrite app_assoc. apply drop_app_length'.
  now rewrite length_app, !repeat_length.
Qed.

(** C6. [reset_all] sets every axis value to [128] and every button byte
    to [0] and transmits; called twice in a row on a device that takes the
    reports, it transmits twice, the second time although the report equals
    the one sent last, and both transmissions carry the idle report: [128]
    for each axis, then [0] for each button byte. *)
Theorem reset_all_twice_sends_idle_twice (self : Joystick) :
  wf self -> faults (_device self) = [] ->
  (reset_all self).1 = inr tt
  /\ (reset_all (reset_all self).2).1 = inr tt
  /\ _axis_states (reset_all self).2 = repeat 128 (Z.to_nat (num_axes self))
  /\ _button_states (reset_all self).2
     = repeat 0 (Z.to_nat (button_banks (num_buttons self)))
  /\ _last_report (reset_all self).2 = idle_report self
  /\ sent (_device (reset_all self).2) = sent (_device self) ++ [idle_report self]
  /\ sent (_device (reset_all (reset_all self).2).2)
     = sent (_device self) ++ [idle_report self; idle_report self]
  /\ take (Z.to_nat (num_axes self)) (idle_report self)
     = repeat 128 (Z.to_nat (num_axes self))
  /\ take (Z.to_nat (button_banks (num_buttons self)))
          (drop (Z.to_nat (num_axes self)) (idle_report self))
     = repeat 0 (Z.to_nat (button_banks (num_buttons self))).
Proof.
  intros Hwf Hf.
  assert (Hacc : accepts (_device self) = true) by (unfold accepts; now rewrite Hf).
  destruct (reset_all_sends_idle self Hwf Hacc)
    as (Hr1 & Hs1 & Ha1 & Hb1 & _ & Hl1 & Hf1 & Hwf1).
  assert (Hacc1 : accepts (_device (reset_all self).2) = true)
    by (unfold accepts; now rewrite Hf1, Hf).
  destruct (reset_all_sends_idle _ Hwf1 Hacc1) as (Hr2 & Hs2 & _).
  rewrite (idle_report_after_reset self Hwf Hacc), Hs1, <- app_assoc in Hs2.
  pose proof (wf_elim self Hwf) as (_ & _ & Hla & Hlb & _).
  rewrite Hla in Ha1. rewrite Hlb in Hb1.
  repeat (split; [assumption|]).
  unfold idle_report, Axis.IDLE. rewrite Hla, Hlb. split.
  - apply take_app_length'. now rewrite repeat_length.
  - rewrite drop_app_length' by now rewrite repeat_length.
    apply take_app_length'. now rewrite repeat_length.
Qed.

Lemma reset_all_twice_sends_idle_twice_witness :
  wf (constructed six_axes) /\ faults (_device (constructed six_axes)) = []
  /\ sent (_device (reset_all (reset_all (constructed six_axes)).2).2)
     = sent (_device (constructed six_axes))
       ++ [idle_report (constructed six_axes); idle_report (constructed six_axes)]
  /\ idle_report (constructed six_axes) = [128; 128; 128; 128; 128; 128; 0; 0].
Proof.
  assert (Hwf : wf (constructed six_axes)) by (vm_compute; reflexivity).
  assert (Hf : faults (_device (constructed six_axes)) = []) by (vm_compute; reflexivity).
  split; [exact Hwf|]. split; [exact Hf|]. split.
  - apply (reset_all_twice_sends_idle_twice (constructed six_axes) Hwf Hf).
  - vm_compute; reflexivity.
Defined.

(** ** Loading the configuration *)

Lemma scan_lines_error (c : JoystickClass) (lines : list string) (e : exn) :
  (scan_lines c lines).1 = inl e ->
  e = ValueError "" /\ (scan_lines c lines).2 = c.
Proof.
  induction lines as [|line rest IH]; cbn [scan_lines]; [discriminate|].
  destruct (Str.contains _ line); [|exact IH].
  destruct (_ <? 4)%nat; cbn; [|discriminate]. now intros [= <-].
Qed.

Lemma scan_lines_skip (c : JoystickClass) (before rest : list string) :
  forallb (fun l => negb (Str.contains "JoystickXL" l)) before = true ->
  scan_lines c (before ++ rest) = scan_lines c rest.
Proof.
  induction before as [|l before IH]; [reflexivity|].
  cbn [forallb app scan_lines]. intros H. apply andb_true_iff in H as [Hl H].
  apply negb_true_iff in Hl. rewrite Hl. now apply IH.
Qed.

(** The scan does not take the digit runs of the line: a token that mixes
    digits with other characters, such as a version number, contributes its
    runs to the one and nothing to the other. *)
Lemma digit_runs_rule_fails_on_version_token :
  ~ SpecWords.loads_digit_runs boot_line.
Proof.
  unfold SpecWords.loads_digit_runs. intros H.
  assert (Hruns : (4 <= length (SpecWords.digit_runs boot_line))%nat)
    by (vm_compute; lia).
  destruct (H Hruns) as (c' & Hload & Haxes & _).
  vm_compute in Hload. injection Hload as <-.
  vm_compute in Haxes. discriminate.
Qed.

(** C4, amended. For a [boot_out.txt] of ASCII text, and a first line with
    the marker whose tokens of digits are short enough for [int], the
    loader decides on that line: it splits the line at whitespace, keeps the
    tokens made of digits only, in order, as integers, and raises the
    configuration error when there are fewer than four of them or the fourth
    is zero; otherwise the axis count is the first, the button count the
    second and the report length the fourth.  The lines before it and after
    it play no part. *)
Theorem load_configuration_first_marker_line
    (c : JoystickClass) (before after : list string) (line : string) :
  forallb Str.is_ascii (before ++ line :: after) = true ->
  forallb (fun l => negb (Str.contains "JoystickXL" l)) before = true ->
  Str.contains "JoystickXL" line = true ->
  forallb Str.int_accepts (List.filter Str.isdigit (Str.split line)) = true ->
  let config := map Str.int (List.filter Str.isdigit (Str.split line)) in
  ((length config < 4)%nat ->
   load_configuration c (Some (before ++ line :: after))
   = (inl ConfigurationError, c))
  /\ ((4 <= length config)%nat -> nth 3 config 0 <> 0 ->
      load_configuration c (Some (before ++ line :: after))
      = (inr tt, {| _num_axes := nth 0 config 0;
                    _num_buttons := nth 1 config 0;
                    _report_size := nth 3 config 0 |}))
  /\ ((4 <= length config)%nat -> nth 3 config 0 = 0 ->
      (load_configuration c (Some (before ++ line :: after))).1
      = inl ConfigurationError).
Proof.
  intros _ Hbefore Hline _ config.
  unfold load_configuration. rewrite (scan_lines_skip c before _ Hbefore).
  cbn [scan_lines]. rewrite Hline. fold config. unfold config_of_line. fold config.
  split; [|split].
  - intros Hlen. apply Nat.ltb_lt in Hlen. now rewrite Hlen.
  - intros Hlen H3. apply Nat.ltb_ge in Hlen. rewrite Hlen.
    cbn [_report_size]. apply Z.eqb_neq in H3. now rewrite H3.
  - intros Hlen H3. apply Nat.ltb_ge in Hlen. rewrite Hlen.
    cbn [_report_size]. apply Z.eqb_eq in H3. now rewrite H3.
Qed.

Lemma load_configuration_first_marker_line_witness :
  (forallb Str.is_ascii (["Adafruit CircuitPython"] ++ boot_line :: ["JoystickXL 1 2 3 4"])
   = true
   /\ forallb (fun l => negb (Str.contains "JoystickXL" l)) ["Adafruit CircuitPython"]
      = true
   /\ Str.contains "JoystickXL" boot_line = true
   /\ forallb Str.int_accepts (List.filter Str.isdigit (Str.split boot_line)) = true
   /\ map Str.int (List.filter Str.isdigit (Str.split boot_line)) = [6; 13; 0; 8]
   /\ load_configuration class_defaults
        (Some (["Adafruit CircuitPython"] ++ boot_line :: ["JoystickXL 1 2 3 4"]))
      = (inr tt,
         {| _num_axes :=
              nth 0 (map Str.int (List.filter Str.isdigit (Str.split boot_line))) 0;
            _num_buttons :=
              nth 1 (map Str.int (List.filter Str.isdigit (Str.split boot_line))) 0;
            _report_size :=
              nth 3 (map Str.int (List.filter Str.isdigit (Str.split boot_line))) 0 |}))
  /\ (forallb Str.is_ascii ([] ++ "JoystickXL 0.4.3 6 13" :: []) = true
      /\ Str.contains "JoystickXL" "JoystickXL 0.4.3 6 13" = true
      /\ forallb Str.int_accepts
           (List.filter Str.isdigit (Str.split "JoystickXL 0.4.3 6 13")) = true
      /\ map Str.int (List.filter Str.isdigit (Str.split "JoystickXL 0.4.3 6 13"))
         = [6; 13]
      /\ load_configuration class_defaults
           (Some ([] ++ "JoystickXL 0.4.3 6 13" :: []))
         = (inl ConfigurationError, class_defaults))
  /\ (forallb Str.is_ascii ([] ++ "JoystickXL 6 13 0 0" :: ["JoystickXL 6 13 0 8"]) = true
      /\ Str.contains "JoystickXL" "JoystickXL 6 13 0 0" = true
      /\ forallb Str.int_accepts
           (List.filter Str.isdigit (Str.split "JoystickXL 6 13 0 0")) = true
      /\ map Str.int (List.filter Str.isdigit (Str.split "JoystickXL 6 13 0 0"))
         = [6; 13; 0; 0]
      /\ (load_configuration class_defaults
            (Some ([] ++ "JoystickXL 6 13 0 0" :: ["JoystickXL 6 13 0 8"]))).1
         = inl ConfigurationError).
Proof.
  split; [|split].
  - assert (Ha : forallb Str.is_ascii
                   (["Adafruit CircuitPython"] ++ boot_line :: ["JoystickXL 1 2 3 4"])
                 = true) by (vm_compute; reflexivity).
    assert (Hb : forallb (fun l => negb (Str.contains "JoystickXL" l))
                   ["Adafruit CircuitPython"] = true) by (vm_compute; reflexivity).
    assert (Hm : Str.contains "JoystickXL" boot_line = true) by (vm_compute; reflexivity).
    assert (Hi : forallb Str.int_accepts (List.filter Str.isdigit (Str.split boot_line))
                 = true) by (vm_compute; reflexivity).
    assert (Hc : map Str.int (List.filter Str.isdigit (Str.split boot_line))
                 = [6; 13; 0; 8]) by (vm_compute; reflexivity).
    split; [exact Ha|]. split; [exact Hb|]. split; [exact Hm|]. split; [exact Hi|].
    split; [exact Hc|].
    apply (load_configuration_first_marker_line class_defaults
             ["Adafruit CircuitPython"] ["JoystickXL 1 2 3 4"] boot_line Ha Hb Hm Hi).
    + rewrite Hc. cbn [length]. lia.
    + rewrite Hc. cbn [nth]. discriminate.
  - assert (Ha : forallb Str.is_ascii ([] ++ "JoystickXL 0.4.3 6 13" :: []) = true)
      by (vm_compute; reflexivity).
    assert (Hm : Str.contains "JoystickXL" "JoystickXL 0.4.3 6 13" = true)
      by (vm_compute; reflexivity).
    assert (Hi : forallb Str.int_accepts
                   (List.filter Str.isdigit (Str.split "JoystickXL 0.4.3 6 13")) = true)
      by (vm_compute; reflexivity).
    assert (Hc : map Str.int (List.filter Str.isdigit (Str.split "JoystickXL 0.4.3 6 13"))
                 = [6; 13]) by (vm_compute; reflexivity).
    split; [exact Ha|]. split; [exact Hm|]. split; [exact Hi|]. split; [exact Hc|].
    apply (load_configuration_first_marker_line class_defaults [] []
             "JoystickXL 0.4.3 6 13" Ha eq_refl Hm Hi).
    rewrite Hc. cbn [length]. lia.
  - assert (Ha : forallb Str.is_ascii
                   ([] ++ "JoystickXL 6 13 0 0" :: ["JoystickXL 6 13 0 8"]) = true)
      by (vm_compute; reflexivity).
    assert (Hm : Str.contains "JoystickXL" "JoystickXL 6 13 0 0" = true)
      by (vm_compute; reflexivity).
    assert (Hi : forallb Str.int_accepts
                   (List.filter Str.isdigit (Str.split "JoystickXL 6 13 0 0")) = true)
      by (vm_compute; reflexivity).
    assert (Hc : map Str.int (List.filter Str.isdigit (Str.split "JoystickXL 6 13 0 0"))
                 = [6; 13; 0; 0]) by (vm_compute; reflexivity).
    split; [exact Ha|]. split; [exact Hm|]. split; [exact Hi|]. split; [exact Hc|].
    apply (load_configuration_first_marker_line class_defaults []
             ["JoystickXL 6 13 0 8"] "JoystickXL 6 13 0 0" Ha eq_refl Hm Hi).
    + rewrite Hc. cbn [length]. lia.
    + rewrite Hc. reflexivity.
Defined.

(** ** Construction: what makes it fail *)

Lemma get_device_none (devices : list Device) :
  forallb (fun d => negb (is_joystick d)) devices = true ->
  _get_device devices = inl DeviceNotFound.
Proof.
  induction devices as [|d devices IH]; [reflexivity|].
  cbn [forallb _get_device]. intros H. apply andb_true_iff in H as [Hd H].
  apply negb_true_iff in Hd. rewrite Hd. now apply IH.
Qed.

(** Construction does not look at the two counts: with no axes and no
    buttons, and a report length that is not zero, it succeeds. *)
Lemma init_without_inputs_succeeds :
  exists self,
    __init__ class_defaults no_inputs [joystick_device] = inr self
    /\ num_axes self = 0 /\ num_buttons self = 0.
Proof.
  eexists. split; [vm_compute; reflexivity|]. split; reflexivity.
Qed.

(** C5, amended. Construction raises the configuration error whenever the
    report length the scan leaves behind is zero, and raises the lookup
    error of [_get_device], at once, when the configuration loads and no
    active device is a joystick that can send reports. *)
Theorem init_fails_without_report_size_or_device
    (c : JoystickClass) (boot_out : option (list string)) (devices : list Device) :
  (_report_size (load_configuration c boot_out).2 = 0 ->
   __init__ c boot_out devices = inl ConfigurationError)
  /\ ((load_configuration c boot_out).1 = inr tt ->
      forallb (fun d => negb (is_joystick d)) devices = true ->
      __init__ c boot_out devices = inl DeviceNotFound).
Proof.
  split.
  - unfold __init__, load_configuration.
    destruct boot_out as [lines|]; [|reflexivity].
    destruct (scan_lines c lines) as [[e|u] c'] eqn:E.
    + destruct (scan_lines_error c lines e) as [-> _]; [now rewrite E|].
      reflexivity.
    + destruct (_report_size c' =? 0) eqn:E0; [reflexivity|].
      cbn [snd]. intros H. apply Z.eqb_neq in E0. contradiction.
  - intros Hload Hdev. unfold __init__.
    destruct (load_configuration c boot_out) as [[e|u] c']; [discriminate|].
    now rewrite (get_device_none devices Hdev).
Qed.

Lemma init_fails_without_report_size_or_device_witness :
  _report_size (load_configuration class_defaults (Some ["JoystickXL 6 13 0 0"])).2 = 0
  /\ __init__ class_defaults (Some ["JoystickXL 6 13 0 0"]) [joystick_device]
     = inl ConfigurationError
  /\ (load_configuration class_defaults six_axes).1 = inr tt
  /\ forallb (fun d => negb (is_joystick d)) [keyboard_device] = true
  /\ __init__ class_defaults six_axes [keyboard_device] = inl DeviceNotFound.
Proof.
  assert (H : _report_size
                (load_configuration class_defaults (Some ["JoystickXL 6 13 0 0"])).2 = 0)
    by (vm_compute; reflexivity).
  split; [exact H|]. split.
  { apply (init_fails_without_report_size_or_device class_defaults
             (Some ["JoystickXL 6 13 0 0"]) [joystick_device]).
    exact H. }
  assert (Hload : (load_configuration class_defaults six_axes).1 = inr tt)
    by (vm_compute; reflexivity).
  assert (Hdev : forallb (fun d => negb (is_joystick d)) [keyboard_device] = true)
    by (vm_compute; reflexivity).
  split; [exact Hload|]. split; [exact Hdev|].
  apply (init_fails_without_report_size_or_device class_defaults six_axes
           [keyboard_device]); assumption.
Defined.

(** ** Batches that fail *)

Lemma button_loop_applies (skip : bool) (pairs : list (Z * bool)) (self : Joystick) :
  length (_button_states self) = Z.to_nat (button_banks (num_buttons self)) ->
  forallb (button_pair_ok (cls self)) pairs = true ->
  for_each (update_button_pair skip) pairs self
  = (inr tt, set_button_states (apply_buttons pairs (_button_states self)) self).
Proof.
  revert self. induction pairs as [|[b v] pairs IH]; intros self Hlen Hok.
  - cbn. now rewrite set_button_states_same.
  - cbn [forallb] in Hok. apply andb_true_iff in Hok as [Hb Hok].
    apply button_pair_ok_iff in Hb. cbn [fst] in Hb.
    cbn [for_each]. unfold bind.
    rewrite (update_button_pair_sets self skip b v Hlen Hb).
    rewrite IH; fields; [reflexivity| |exact Hok].
    now rewrite length_insert.
Qed.

(** Fail-fast without rollback, for buttons: the pairs before the first
    one that does not pass validation are applied, in order, and stay
    applied; the call raises the error of that pair; nothing after it is
    looked at, and no report cycle runs. *)
Lemma update_button_fails_fast (self : Joystick)
    (before after : list (Z * bool)) (bad : Z * bool) (defer : bool) :
  wf self ->
  forallb (button_pair_ok (cls self)) before = true ->
  button_pair_ok (cls self) bad = false ->
  update_button (before ++ bad :: after) defer false self
  = (inl (if num_buttons self =? 0 then RangeError.NoButtons
          else RangeError.ButtonIndex),
     set_button_states (apply_buttons before (_button_states self)) self).
Proof.
  intros Hwf Hbefore Hbad. apply wf_elim in Hwf as (_ & _ & _ & Hlen & _).
  unfold update_button, bind. rewrite for_each_app. unfold bind.
  rewrite (button_loop_applies false before self Hlen Hbefore).
  cbn [for_each]. unfold bind. destruct bad as [b v].
  unfold update_button_pair, bind.
  rewrite validate_button_not_ok; [reflexivity|].
  fields. intros Hb. apply (button_pair_ok_iff (cls self) (b, v)) in Hb. congruence.
Qed.

Lemma axis_loop_applies (skip : bool) (pairs : list (Z * Z)) (self : Joystick) :
  length (_axis_states self) = Z.to_nat (num_axes self) ->
  forallb (fun p => axis_pair_ok (cls self) p && (0 <=? fst p)) pairs = true ->
  for_each (update_axis_pair skip) pairs self
  = (inr tt, set_axis_states (apply_axes (num_axes self) pairs (_axis_states self)) self).
Proof.
  revert self. induction pairs as [|[a v] pairs IH]; intros self Hlen Hok.
  - cbn. now rewrite set_axis_states_same.
  - cbn [forallb] in Hok. apply andb_true_iff in Hok as [Ha Hok].
    apply andb_true_iff in Ha as [Ha H0]. cbn [fst] in H0.
    assert (Hr : 0 <= a < num_axes self).
    { unfold axis_pair_ok, num_axes in *. cbn [fst snd] in Ha. bool_to_prop. lia. }
    cbn [for_each]. unfold bind.
    rewrite (update_axis_pair_writes self skip a v
               (Z.to_nat (reverse_sliders (num_axes self) a)) (or_intror Ha)).
    + rewrite IH; fields; [reflexivity| |exact Hok]. now rewrite length_insert.
    + apply index_in_range. pose proof (reverse_sliders_range _ _ Hr). lia.
Qed.

(** The same for axes, for pairs before the failing one whose indices are
    not negative. *)
Lemma update_axis_fails_fast (self : Joystick)
    (before after : list (Z * Z)) (bad : Z * Z) (defer : bool) :
  wf self ->
  forallb (fun p => axis_pair_ok (cls self) p && (0 <=? fst p)) before = true ->
  axis_pair_ok (cls self) bad = false ->
  exists msg,
    _validate_axis_value (fst bad) (snd bad) self = (inl (ValueError msg), self)
    /\ update_axis (before ++ bad :: after) defer false self
       = (inl (ValueError msg),
          set_axis_states
            (apply_axes (num_axes self) before (_axis_states self)) self).
Proof.
  intros Hwf Hbefore Hbad. apply wf_elim in Hwf as (_ & _ & Hlen & _).
  destruct bad as [a v].
  destruct (validate_axis_not_ok self a v Hbad) as [msg Hv].
  exists msg. split; [exact Hv|].
  unfold update_axis, bind. rewrite for_each_app. unfold bind.
  rewrite (axis_loop_applies false before self Hlen Hbefore).
  cbn [for_each]. unfold bind, update_axis_pair, bind.
  pose proof (validate_axis_value_cases
                (set_axis_states (apply_axes (num_axes self) before (_axis_states self)) self)
                a v) as Hspec.
  destruct (validate_axis_not_ok
              (set_axis_states (apply_axes (num_axes self) before (_axis_states self)) self)
              a v Hbad) as [msg' Hv'].
  rewrite Hv'. f_equal. f_equal.
  revert Hv Hv'. run. fields.
  destruct (_ =? 0); [congruence|]. destruct (_ >? _); [congruence|].
  destruct (negb _); congruence.
Qed.

(** C1, where the code leaves it. With six axes, the batch
    [(-7, 200), (6, 1)] has a second pair that does not pass validation, yet
    the call does not raise the range error of that pair: the first pair
    passes validation, which has no lower bound on the index, and its write
    raises [IndexError]. *)
Theorem update_axis_batch_raises_IndexError_first :
  let self := constructed six_axes in
  _validate_axis_value (-7) 200 self = (inr true, self)
  /\ _validate_axis_value 6 1 self = (inl RangeError.AxisIndex, self)
  /\ update_axis [(-7, 200); (6, 1)] false false self = (inl IndexError, self).
Proof.
  vm_compute. repeat split; reflexivity.
Qed.

(** The example of C1 runs as stated: with ten buttons, the batch
    [(0, true), (999, true)] raises the button range error and leaves
    button 0 set. *)
Example update_button_fails_fast_example :
  let self := constructed ten_buttons in
  (update_button [(0, true); (999, true)] false false self).1
  = inl RangeError.ButtonIndex
  /\ _button_states (update_button [(0, true); (999, true)] false false self).2
     = [1; 0]
  /\ _device (update_button [(0, true); (999, true)] false false self).2
     = _device self.
Proof.
  vm_compute. repeat split; reflexivity.
Qed.

(** C10, where the code leaves it. With six axes the pairs [(-1, 200)] and
    [(-7, 200)] pass validation although their index is negative; the index
    the write uses is the negative index itself, outside [0, 6): Python
    counts [-1] from the end of the list, and [-7] is out of range and
    raises [IndexError]. *)
Theorem validated_axis_index_below_zero :
  let self := constructed six_axes in
  _validate_axis_value (-1) 200 self = (inr true, self)
  /\ reverse_sliders (num_axes self) (-1) = -1
  /\ _axis_states (update_axis_pair false (-1, 200) self).2
     = [128; 128; 128; 128; 128; 200]
  /\ _validate_axis_value (-7) 200 self = (inr true, self)
  /\ reverse_sliders (num_axes self) (-7) = -7
  /\ update_axis_pair false (-7, 200) self = (inl IndexError, self).
Proof.
  vm_compute. repeat split; reflexivity.
Qed.

(** For an index that is not negative, the index the write uses is in
    bounds. *)
Lemma validated_axis_index_in_bounds (self : Joystick) (a v : Z) :
  wf self -> 0 <= a -> axis_pair_ok (cls self) (a, v) = true ->
  0 <= reverse_sliders (num_axes self) a < num_axes self
  /\ Py.index (length (_axis_states self)) (reverse_sliders (num_axes self) a)
     = Some (Z.to_nat (reverse_sliders (num_axes self) a)).
Proof.
  intros Hwf H0 Hok. apply wf_elim in Hwf as (_ & _ & Hlen & _).
  assert (Hr : 0 <= a < num_axes self).
  { unfold axis_pair_ok, num_axes in *. cbn [fst snd] in Hok. bool_to_prop. lia. }
  pose proof (reverse_sliders_range _ _ Hr) as Hs.
  split; [exact Hs|]. apply index_in_range. lia.
Qed.

(** ** The invariant is kept by the operations *)

Lemma pack_into_some (fmt : string) (buffer values report : list Z) :
  struct.pack_into fmt buffer 0 values = Some report ->
  struct.calcsize fmt = Some (length values)
  /\ (length values <= length buffer)%nat
  /\ forallb struct.is_byte values = true
  /\ report = values ++ drop (length values) buffer.
Proof.
  unfold struct.pack_into.
  destruct (struct.calcsize fmt) as [n|]; [|discriminate].
  destruct (((n =? length values) && (0 + n <=? length buffer))%nat
            && forallb struct.is_byte values) eqn:E; [|discriminate].
  intros [= <-]. bool_to_prop. subst n. cbn [Nat.add] in *. cbn [take app].
  repeat split; assumption || reflexivity.
Qed.

Lemma update_wf (always : bool) (self : Joystick) :
  wf self -> wf (update always self).2.
Proof.
  intros Hwf. pose proof (serialize_wf self Hwf) as Hser.
  rewrite (update_run always self _ Hser).
  apply wf_elim in Hwf as (H1 & H2 & H3 & H4 & H5 & H6 & H7 & H8).
  assert (Hlen : (length (_axis_states self) + length (_button_states self)
                  <= length (_axis_states self ++ _button_states self
                       ++ drop (length (_axis_states self) + length (_button_states self))
                               (_report self)))%nat).
  { rewrite !length_app, length_drop. lia. }
  destruct (always || _);
    [destruct (send_report _ _) as [[e|u] d]|];
    apply wf_intro; fields; assumption.
Qed.

Lemma is_byte_iff (x : Z) : struct.is_byte x = true <-> 0 <= x <= 255.
Proof.
  unfold struct.is_byte. split; intros H.
  - bool_to_prop. lia.
  - apply andb_true_iff. split; apply Z.leb_le; lia.
Qed.

(** A number that is not negative is a byte when it has no bit from the
    eighth on. *)
Lemma byte_of_bits (x : Z) :
  0 <= x -> (forall i, 8 <= i -> Z.testbit x i = false) -> x <= 255.
Proof.
  intros Hx Hbits. destruct (Z_le_gt_dec x 255) as [H|H]; [exact H|].
  assert (Hpos : 0 < x) by lia.
  assert (Hlog : 8 <= Z.log2 x) by (apply Z.log2_le_pow2; [exact Hpos|cbn; lia]).
  pose proof (Z.bit_log2 x Hpos) as Hbit.
  rewrite (Hbits _ Hlog) in Hbit. discriminate.
Qed.

Lemma bits_of_byte (x i : Z) :
  0 <= x <= 255 -> 8 <= i -> Z.testbit x i = false.
Proof.
  intros Hx Hi. destruct (Z.eq_dec x 0) as [->|Hne]; [apply Z.bits_0|].
  apply Z.bits_above_log2; [lia|].
  assert (Z.log2 x < 8); [|lia].
  apply Z.log2_lt_pow2; [lia|]. cbn. lia.
Qed.

Lemma set_bit_byte (value : bool) (bit x : Z) :
  0 <= bit < 8 -> 0 <= x <= 255 -> 0 <= set_bit value bit x <= 255.
Proof.
  intros Hbit Hx.
  assert (H0 : 0 <= set_bit value bit x).
  { unfold set_bit. destruct value.
    - apply Z.lor_nonneg. split; [lia|]. apply Z.shiftl_nonneg. lia.
    - apply Z.land_nonneg. left. lia. }
  split; [exact H0|]. apply byte_of_bits; [exact H0|].
  intros i Hi. rewrite set_bit_spec by lia.
  replace (i =? bit) with false by (symmetry; apply Z.eqb_neq; lia).
  now apply bits_of_byte.
Qed.

Lemma forallb_lookup (P : Z -> bool) (l : list Z) (k : nat) (d : Z) :
  forallb P l = true -> (k < length l)%nat -> P (nth k l d) = true.
Proof.
  intros Hl Hk. rewrite forallb_forall in Hl. apply Hl. now apply nth_In.
Qed.

(** A validated axis update keeps the invariant. *)
Lemma update_axis_pair_wf (p : Z * Z) (self : Joystick) :
  wf self -> wf (update_axis_pair false p self).2.
Proof.
  intros Hwf. destruct p as [a v]. unfold update_axis_pair, bind.
  destruct (axis_pair_ok (cls self) (a, v)) eqn:Hok.
  - rewrite (validate_axis_ok self a v Hok). unfold gets, axis_setitem, Py.setitem.
    destruct (Py.index _ _) as [k|]; [|exact Hwf]. fields.
    apply wf_elim in Hwf as (H1 & H2 & H3 & H4 & H5 & H6 & H7 & H8).
    apply wf_intro; fields; rewrite ?length_insert; try assumption.
    apply forallb_insert; [exact H7|]. apply is_byte_iff.
    unfold axis_pair_ok in Hok. cbn [fst snd] in Hok. bool_to_prop. lia.
  - destruct (validate_axis_not_ok self a v Hok) as [msg ->]. exact Hwf.
Qed.

(** A button update keeps the invariant, validated or not. *)
Lemma update_button_pair_wf (skip : bool) (p : Z * bool) (self : Joystick) :
  wf self -> wf (update_button_pair skip p self).2.
Proof.
  intros Hwf. destruct p as [b v].
  assert (Hstep : forall x k, _button_states self !! k = Some x ->
            wf (set_button_states
                  (<[k := set_bit v (b mod 8) x]> (_button_states self)) self)).
  { intros x k Hx.
    pose proof (wf_elim self Hwf) as (H1 & H2 & H3 & H4 & H5 & H6 & H7 & H8).
    apply wf_intro; fields; rewrite ?length_insert; try assumption.
    apply forallb_insert; [exact H8|]. apply is_byte_iff.
    apply set_bit_byte; [apply Z.mod_pos_bound; lia|].
    apply is_byte_iff. rewrite <- (nth_lookup_Some _ _ 0 x Hx).
    apply forallb_lookup; [exact H8|]. apply lookup_lt_is_Some. now exists x. }
  unfold update_button_pair, bind.
  destruct ((if skip then ret true else _validate_button_number b) self)
    as [[e|ok] s] eqn:E.
  - cbn. destruct skip; [discriminate|].
    pose proof (validate_button_pure b self) as H. rewrite E in H.
    cbn in H. now subst s.
  - assert (s = self) as ->.
    { destruct skip; [now inversion E|].
      pose proof (validate_button_pure b self) as H. now rewrite E in H. }
    destruct ok; [|exact Hwf].
    unfold button_getitem, Py.getitem.
    destruct (Py.index _ _) as [k|] eqn:Hk; [|exact Hwf].
    destruct (_button_states self !! k) as [x|] eqn:Hx; [|exact Hwf].
    specialize (Hstep x k Hx). unfold set_bit in Hstep.
    destruct v; unfold button_setitem, Py.setitem; rewrite Hk; exact Hstep.
Qed.

Lemma for_each_wf {A} (body : A -> M unit) (l : list A) (self : Joystick) :
  (forall x s, wf s -> wf (body x s).2) ->
  wf self -> wf (for_each body l self).2.
Proof.
  intros Hbody. revert self. induction l as [|x l IH]; intros self Hwf; [exact Hwf|].
  cbn [for_each]. unfold bind. specialize (Hbody x self Hwf).
  destruct (body x self) as [[e|u] s]; [exact Hbody|]. now apply IH.
Qed.

(** Every validated call of [update_axis] and every call of
    [update_button] and [reset_all] leaves a well-formed object
    well-formed, whether it returns or raises. *)
Lemma operations_keep_wf (self : Joystick) :
  wf self ->
  (forall axis defer, wf (update_axis axis defer false self).2)
  /\ (forall button defer skip, wf (update_button button defer skip self).2)
  /\ (forall always, wf (update always self).2)
  /\ wf (reset_all self).2.
Proof.
  intros Hwf. split; [|split; [|split]].
  - intros axis defer. unfold update_axis, bind.
    pose proof (for_each_wf (update_axis_pair false) axis self
                  update_axis_pair_wf Hwf) as H.
    destruct (for_each _ axis self) as [[e|u] s]; [exact H|].
    destruct defer; [exact H|]. now apply update_wf.
  - intros button defer skip. unfold update_button, bind.
    pose proof (for_each_wf (update_button_pair skip) button self
                  (update_button_pair_wf skip) Hwf) as H.
    destruct (for_each _ button self) as [[e|u] s]; [exact H|].
    destruct defer; [exact H|]. now apply update_wf.
  - intros always. now apply update_wf.
  - rewrite (reset_all_run self Hwf). apply update_wf. now apply reset_state_wf.
Qed.

(** ** The invariant is established by construction *)

Lemma int_from_nonneg (s : string) (acc : Z) :
  0 <= acc -> Str.all_digits s = true -> 0 <= Str.int_from acc s.
Proof.
  revert acc. induction s as [|c s IH]; intros acc Hacc Hs; [exact Hacc|].
  cbn [Str.all_digits] in Hs. apply andb_true_iff in Hs as [Hc Hs].
  cbn [Str.int_from]. apply IH; [|exact Hs].
  unfold Str.isdigit_char in Hc. unfold Str.digit_value.
  apply andb_true_iff in Hc as [Hc _]. apply Nat.leb_le in Hc. lia.
Qed.

Lemma config_of_line_nonneg (line : string) (k : nat) :
  0 <= nth k (config_of_line line) 0.
Proof.
  assert (Hall : forall x, In x (config_of_line line) -> 0 <= x).
  { intros x Hin. unfold config_of_line in Hin.
    apply in_map_iff in Hin as (s & <- & Hs).
    apply filter_In in Hs as [_ Hs].
    apply int_from_nonneg; [lia|]. now destruct s. }
  generalize dependent (config_of_line line). intros l Hall.
  destruct (nth_in_or_default k l 0) as [Hin|Heq]; [now apply Hall|].
  rewrite Heq. lia.
Qed.

Lemma scan_lines_nonneg (c : JoystickClass) (lines : list string) :
  0 <= _num_axes c -> 0 <= _num_buttons c -> 0 <= _report_size c ->
  0 <= _num_axes (scan_lines c lines).2
  /\ 0 <= _num_buttons (scan_lines c lines).2
  /\ 0 <= _report_size (scan_lines c lines).2.
Proof.
  intros Ha Hb Hr. induction lines as [|line rest IH]; cbn [scan_lines]; [now cbn|].
  destruct (Str.contains _ line); [|exact IH].
  destruct (_ <? 4)%nat; cbn; [tauto|].
  repeat split; apply config_of_line_nonneg.
Qed.

Lemma load_configuration_nonneg (c : JoystickClass) (boot_out : option (list string)) :
  0 <= _num_axes c -> 0 <= _num_buttons c -> 0 <= _report_size c ->
  0 <= _num_axes (load_configuration c boot_out).2
  /\ 0 <= _num_buttons (load_configuration c boot_out).2
  /\ 0 <= _report_size (load_configuration c boot_out).2.
Proof.
  intros Ha Hb Hr. unfold load_configuration.
  destruct boot_out as [lines|]; [|now cbn].
  pose proof (scan_lines_nonneg c lines Ha Hb Hr) as H.
  destruct (scan_lines c lines) as [[e|u] c']; [exact H|].
  now destruct (_report_size c' =? 0).
Qed.

Lemma items_append_B (codes : string) (n : nat) :
  struct.items codes = Some n -> struct.items (codes ++ "B") = Some (S n).
Proof.
  revert n. induction codes as [|c codes IH]; intros n; cbn [struct.items String.append].
  - now intros [= <-].
  - destruct (Ascii.eqb c "B"); [|discriminate].
    destruct (struct.items codes) as [m|]; [|discriminate].
    cbn. intros [= <-]. now rewrite (IH m eq_refl).
Qed.

Lemma calcsize_append_B (fmt : string) (n : nat) :
  struct.calcsize fmt = Some n -> struct.calcsize (fmt ++ "B") = Some (S n).
Proof.
  destruct fmt as [|c codes]; [discriminate|]. cbn [struct.calcsize String.append].
  destruct (Ascii.eqb c "<"); [|discriminate]. apply items_append_B.
Qed.

(** The loops that build the states and the format. *)
Lemma iter_append_state (n : nat) (v : Z) (l : list Z) (fmt : string) (k : nat) :
  struct.calcsize fmt = Some k ->
  (Nat.iter n (append_state v) (l, fmt)).1 = l ++ repeat v n
  /\ struct.calcsize (Nat.iter n (append_state v) (l, fmt)).2 = Some (k + n)%nat.
Proof.
  intros Hk. induction n as [|n [IH1 IH2]].
  - cbn. now rewrite app_nil_r, Nat.add_0_r.
  - rewrite Nat.iter_succ.
    destruct (Nat.iter n (append_state v) (l, fmt)) as [l' fmt'].
    unfold append_state. cbn [fst snd] in *. subst l'. split.
    + now rewrite <- app_assoc, <- repeat_cons.
    + rewrite (calcsize_append_B _ _ IH2). f_equal. lia.
Qed.

Lemma button_banks_nonneg (nb : Z) : 0 <= nb -> 0 <= button_banks nb.
Proof.
  intros H. unfold button_banks.
  destruct (nb mod 8 =? 0); Z.to_euclidean_division_equations; lia.
Qed.

(** A construction that returns an object returns a well-formed one, with
    every axis idle and every button released, after exactly one
    transmission: the idle report. *)
Lemma init_wf (c : JoystickClass) (boot_out : option (list string))
    (devices : list Device) (self : Joystick) :
  0 <= _num_axes c -> 0 <= _num_buttons c -> 0 <= _report_size c ->
  __init__ c boot_out devices = inr self ->
  _last_report self = _report self
  /\ wf self
  /\ cls self = (load_configuration c boot_out).2
  /\ _axis_states self = repeat Axis.IDLE (Z.to_nat (num_axes self))
  /\ _button_states self = repeat 0 (Z.to_nat (button_banks (num_buttons self)))
  /\ transmitted self
  /\ exists device,
       _get_device devices = inr device
       /\ sent (_device self) = sent device ++ [_report self].
Proof.
  intros Ha Hb Hr. unfold __init__.
  pose proof (load_configuration_nonneg c boot_out Ha Hb Hr) as (Ha' & Hb' & Hr').
  destruct (load_configuration c boot_out) as [[e|u] c']; [discriminate|].
  cbn [snd] in *.
  destruct (_get_device devices) as [e|device]; [discriminate|].
  unfold bytearray. replace (_report_size c' <? 0) with false
    by (symmetry; apply Z.ltb_ge; lia).
  pose proof (iter_append_state (Py.range (_num_axes c')) Axis.IDLE [] "<" 0 eq_refl)
    as [Hax Hf1].
  destruct (Nat.iter (Py.range (_num_axes c')) _ _) as [axes fmt1].
  cbn [fst snd app Nat.add] in Hax, Hf1. subst axes.
  pose proof (iter_append_state (Py.range (button_banks (_num_buttons c'))) 0
                [] fmt1 _ Hf1) as [Hbt Hf2].
  destruct (Nat.iter (Py.range (button_banks (_num_buttons c'))) _ _)
    as [buttons fmt2].
  cbn [fst snd app] in Hbt, Hf2. subst buttons. unfold Py.range in *.
  set (self0 := {| cls := c'; _device := device; _report := _;
                   _last_report := _; _format := fmt2; _axis_states := _;
                   _button_states := _ |}).
  unfold try_except_OSError.
  rewrite (reset_all_loops self0) by (subst self0; fields; now rewrite repeat_length).
  subst self0. fields. rewrite !repeat_length.
  match goal with |- context [update true ?s] => set (self1 := s) end.
  unfold update.
  destruct (struct.pack_into _ _ 0 _) as [report|] eqn:Hpack; [|discriminate].
  apply pack_into_some in Hpack as (_ & Hroom & Hbytes & Hreport).
  subst self1. fields. rewrite length_app, !repeat_length in Hroom, Hreport.
  cbn [orb].
  unfold send_report at 1. fields.
  destruct (faults device) as [|[|] fs] eqn:Ef; fields;
    [|unfold time_sleep, bind, raise; cbn; discriminate|].
  all: intros [= <-]; open_fields.
  all: rewrite forallb_app in Hbytes; apply andb_true_iff in Hbytes as [Hb1 Hb2].
  all: split; [reflexivity|].
  all: split; [apply wf_intro; open_fields; rewrite ?repeat_length;
               try assumption; try reflexivity;
               try (rewrite Hreport, !length_app, length_drop, !repeat_length; lia)|].
  all: split; [reflexivity|]. all: split; [reflexivity|]. all: split; [reflexivity|].
  all: split; [|exists device; split; reflexivity].
  all: unfold transmitted, serialize, struct.pack_into; fields.
  all: rewrite Hf2, length_app, !repeat_length, Nat.eqb_refl, forallb_app, Hb1, Hb2.
  all: cbn [andb Nat.add take app].
  all: replace (Z.to_nat (_num_axes c') + Z.to_nat (button_banks (_num_buttons c'))
                <=? length report)%nat with true
         by (symmetry; apply Nat.leb_le;
             rewrite Hreport, !length_app, length_drop, !repeat_length; lia).
  all: cbn [andb take app]; f_equal.
  all: assert (Hd : drop (Z.to_nat (_num_axes c')
                          + Z.to_nat (button_banks (_num_buttons c'))) report
                    = drop (Z.to_nat (_num_axes c')
                            + Z.to_nat (button_banks (_num_buttons c')))
                           (repeat 0 (Z.to_nat (_report_size c'))))
         by (rewrite Hreport at 1; apply drop_app_length';
             now rewrite length_app, !repeat_length).
  all: rewrite Hd; symmetry; exact Hreport.
Qed.

(** ** Where the scan and the digit runs agree

    On a line whose tokens are numbers or have no digit at all, the
    digits-only tokens are the maximal digit runs: there the description of
    the specification and the scan of the code give the same integers. *)

Lemma all_digits_of_list (l : list ascii) :
  Str.all_digits (string_of_list_ascii l) = forallb Str.isdigit_char l.
Proof.
  induction l as [|c l IH]; cbn; [reflexivity|]. now rewrite IH.
Qed.

Lemma no_digits_of_list (l : list ascii) :
  SpecWords.no_digits (string_of_list_ascii l)
  = forallb (fun c => negb (Str.isdigit_char c)) l.
Proof.
  induction l as [|c l IH]; cbn; [reflexivity|]. now rewrite IH.
Qed.

Lemma forallb_rev' {A} (P : A -> bool) (l : list A) :
  forallb P (rev l) = forallb P l.
Proof.
  induction l as [|x l IH]; cbn; [reflexivity|].
  rewrite forallb_app, IH. cbn. rewrite andb_true_r. apply andb_comm.
Qed.

Lemma isdigit_of_token (c : ascii) (tok : list ascii) :
  Str.isdigit (string_of_list_ascii (rev (c :: tok)))
  = forallb Str.isdigit_char (c :: tok).
Proof.
  rewrite <- forallb_rev', <- all_digits_of_list.
  now destruct (string_of_list_ascii (rev (c :: tok))) eqn:E;
    [destruct (rev (c :: tok)) eqn:E'; [apply (f_equal (@length _)) in E';
       rewrite length_rev in E'|]; discriminate|].
Qed.

Lemma space_is_no_digit (c : ascii) :
  Str.isspace c = true -> Str.isdigit_char c = false.
Proof.
  unfold Str.isspace, Str.isdigit_char. intros H.
  apply andb_false_iff. apply orb_true_iff in H as [H|H];
    apply andb_true_iff in H as [H1 H2];
    apply Nat.leb_le in H1, H2.
  - left. apply Nat.leb_gt. lia.
  - left. apply Nat.leb_gt. lia.
Qed.

(** A token with a digit and another character in it is not plain,
    however it goes on. *)
Lemma mixed_token_not_plain (s : string) (tok : list ascii) :
  forallb Str.isdigit_char tok = false ->
  forallb (fun c => negb (Str.isdigit_char c)) tok = false ->
  forallb SpecWords.plain_token (Str.split_from tok s) = false.
Proof.
  revert tok. induction s as [|c s IH]; intros tok Hd Hn.
  - cbn [Str.split_from]. destruct tok as [|c tok]; [discriminate|].
    cbn [Str.flush forallb]. unfold SpecWords.plain_token.
    rewrite isdigit_of_token, Hd, no_digits_of_list, forallb_rev', Hn. reflexivity.
  - cbn [Str.split_from]. destruct (Str.isspace c).
    + destruct tok as [|c' tok]; [discriminate|].
      cbn [Str.flush app forallb]. unfold SpecWords.plain_token at 1.
      rewrite isdigit_of_token, Hd, no_digits_of_list, forallb_rev', Hn. reflexivity.
    + apply IH; cbn [forallb]; [rewrite Hd|rewrite Hn]; apply andb_false_r.
Qed.

(** The token read so far and the run read so far, in step: either the
    token is the run, all digits, or the token has no digit and there is no
    run. *)
Lemma flush_agrees (tok run : list ascii) :
  tok = run /\ forallb Str.isdigit_char tok = true
  \/ run = [] /\ forallb (fun c => negb (Str.isdigit_char c)) tok = true ->
  map Str.int (List.filter Str.isdigit (Str.flush tok)) = SpecWords.flush_run run.
Proof.
  intros [[<- Hd]|[-> Hn]].
  - destruct tok as [|c tok]; [reflexivity|].
    cbn [Str.flush SpecWords.flush_run List.filter].
    now rewrite isdigit_of_token, Hd.
  - destruct tok as [|c tok]; [reflexivity|].
    cbn [Str.flush SpecWords.flush_run List.filter].
    rewrite isdigit_of_token. cbn [forallb] in *.
    apply andb_true_iff in Hn as [Hc _]. apply negb_true_iff in Hc.
    now rewrite Hc.
Qed.

Lemma scan_agrees_from (s : string) (tok run : list ascii) :
  tok = run /\ forallb Str.isdigit_char tok = true
  \/ run = [] /\ tok <> [] /\ forallb (fun c => negb (Str.isdigit_char c)) tok = true ->
  forallb SpecWords.plain_token (Str.split_from tok s) = true ->
  map Str.int (List.filter Str.isdigit (Str.split_from tok s))
  = SpecWords.digit_runs_from run s.
Proof.
  revert tok run. induction s as [|c s IH]; intros tok run Hinv Hplain.
  - cbn [Str.split_from SpecWords.digit_runs_from].
    apply flush_agrees. tauto.
  - cbn [Str.split_from SpecWords.digit_runs_from] in *.
    destruct (Str.isspace c) eqn:Hsp.
    + rewrite (space_is_no_digit c Hsp).
      rewrite forallb_app in Hplain. apply andb_true_iff in Hplain as [_ Hplain].
      rewrite List.filter_app, map_app. f_equal; [apply flush_agrees; tauto|].
      apply IH; [now left|exact Hplain].
    + destruct (Str.isdigit_char c) eqn:Hc.
      * destruct Hinv as [[<- Hd]|(-> & Hne & Hn)].
        -- apply IH; [|exact Hplain]. left. split; [reflexivity|].
           cbn [forallb]. now rewrite Hc, Hd.
        -- exfalso.
           rewrite mixed_token_not_plain in Hplain; [discriminate| |];
             cbn [forallb]; rewrite Hc; cbn [negb andb]; [|reflexivity].
           destruct tok as [|c' tok]; [contradiction|].
           cbn [forallb] in *. apply andb_true_iff in Hn as [Hc' _].
           apply negb_true_iff in Hc'. now rewrite Hc'.
      * assert (Hnext : forallb (fun c => negb (Str.isdigit_char c)) tok = true ->
                  map Str.int (List.filter Str.isdigit (Str.split_from (c :: tok) s))
                  = SpecWords.digit_runs_from [] s).
        { intros Hn. apply IH; [|exact Hplain]. right.
          split; [reflexivity|]. split; [discriminate|].
          cbn [forallb]. now rewrite Hc, Hn. }
        destruct Hinv as [[<- Hd]|(-> & Hne & Hn)].
        -- destruct tok as [|c' tok]; [now apply Hnext|].
           exfalso.
           rewrite mixed_token_not_plain in Hplain; [discriminate| |];
             cbn [forallb]; rewrite Hc; cbn [negb andb]; [reflexivity|].
           cbn [forallb] in Hd. apply andb_true_iff in Hd as [Hc' _].
           now rewrite Hc'.
        -- cbn [SpecWords.flush_run app]. now apply Hnext.
Qed.

(** The nearby statement of C4 in the words of the specification: on a
    line of plain tokens the scan of the code yields the maximal digit
    runs. *)
Lemma config_of_line_is_digit_runs (line : string) :
  forallb SpecWords.plain_token (Str.split line) = true ->
  config_of_line line = SpecWords.digit_runs line.
Proof.
  intros H. unfold config_of_line, Str.split, SpecWords.digit_runs.
  apply scan_agrees_from; [now left|exact H].
Qed.

Example config_of_example_line_is_digit_runs :
  config_of_line example_line = [6; 13; 0; 20]
  /\ SpecWords.digit_runs example_line = [6; 13; 0; 20].
Proof.
  split; vm_compute; reflexivity.
Qed.

(** The handler of the first transmission that fails: with a device whose
    first [send_report] raises [OSError], construction ends in the
    [NameError] of [time.sleep], and the second [reset_all] is not run. *)
Example init_first_send_fails :
  __init__ class_defaults six_axes [busy_device] = inl (NameError "time").
Proof.
  vm_compute. reflexivity.
Qed.

(** ** Further properties of the engine *)

(** X1. [_validate_button_number] raises "no buttons" when there are no
    buttons, else "button out of range" when the index is negative or not
    below the number of buttons; it returns [True] exactly for
    [0 <= button < num_buttons], and it never changes the object. *)
Theorem validate_button_number_spec (self : Joystick) (button : Z) :
  (num_buttons self = 0 ->
   _validate_button_number button self = (inl RangeError.NoButtons, self))
  /\ (num_buttons self <> 0 -> button < 0 \/ button >= num_buttons self ->
      _validate_button_number button self = (inl RangeError.ButtonIndex, self))
  /\ (_validate_button_number button self = (inr true, self)
      <-> 0 <= button < num_buttons self)
  /\ (_validate_button_number button self).2 = self.
Proof.
  split; [|split; [|split]].
  - intros H0. rewrite validate_button_not_ok by lia.
    apply Z.eqb_eq in H0. now rewrite H0.
  - intros H0 Hb. rewrite validate_button_not_ok by lia.
    apply Z.eqb_neq in H0. now rewrite H0.
  - split.
    + intros H.
      destruct (Z_le_dec 0 button) as [H1|H1];
        [destruct (Z_lt_dec button (num_buttons self)) as [H2|H2]; [lia|]|];
        rewrite validate_button_not_ok in H by lia;
        destruct (num_buttons self =? 0); discriminate.
    + apply validate_button_ok.
  - apply validate_button_pure.
Qed.

Lemma validate_button_number_spec_witness :
  (num_buttons (constructed thirteen_axes) = 0
   /\ _validate_button_number 0 (constructed thirteen_axes)
      = (inl RangeError.NoButtons, constructed thirteen_axes))
  /\ (num_buttons (constructed six_axes) <> 0
      /\ (-1 < 0 \/ -1 >= num_buttons (constructed six_axes))
      /\ _validate_button_number (-1) (constructed six_axes)
         = (inl RangeError.ButtonIndex, constructed six_axes)).
Proof.
  assert (H0 : num_buttons (constructed thirteen_axes) = 0) by (vm_compute; reflexivity).
  assert (H1 : num_buttons (constructed six_axes) <> 0) by (vm_compute; discriminate).
  assert (H2 : -1 < 0 \/ -1 >= num_buttons (constructed six_axes)) by (left; lia).
  split; [split; [exact H0|]|split; [exact H1|split; [exact H2|]]].
  - apply (validate_button_number_spec (constructed thirteen_axes) 0). exact H0.
  - apply (validate_button_number_spec (constructed six_axes) (-1)); assumption.
Defined.

(** X2. [_get_device] returns a device exactly when it is the first active
    device that is a joystick able to send reports, and raises its
    [ValueError] exactly when no active device is one. *)
Theorem get_device_first_joystick (devices : list Device) :
  (forall device,
     _get_device devices = inr device
     <-> exists before after,
           devices = before ++ device :: after
           /\ forallb (fun d => negb (is_joystick d)) before = true
           /\ is_joystick device = true)
  /\ (_get_device devices = inl DeviceNotFound
      <-> forallb (fun d => negb (is_joystick d)) devices = true)
  /\ (forall e, _get_device devices = inl e -> e = DeviceNotFound).
Proof.
  induction devices as [|d devices (IH1 & IH2 & IH3)].
  - split; [|split].
    + intros device. split; [discriminate|].
      intros (before & after & H & _). now destruct before.
    + now split.
    + now intros e [= <-].
  - cbn [_get_device forallb]. destruct (is_joystick d) eqn:Hd; cbn [negb andb].
    + split; [|split]; [|split; discriminate|discriminate].
      intros device. split.
      * intros [= <-]. now exists [], devices.
      * intros (before & after & H & Hb & Hj).
        destruct before as [|d' before]; [now inversion H|].
        inversion H; subst d'. cbn [forallb] in Hb. now rewrite Hd in Hb.
    + split; [|split]; [|exact IH2|exact IH3].
      intros device. rewrite IH1. split.
      * intros (before & after & -> & Hb & Hj).
        exists (d :: before), after. cbn [forallb]. now rewrite Hd, Hb.
      * intros (before & after & H & Hb & Hj).
        destruct before as [|d' before].
        -- inversion H; subst. now rewrite Hj in Hd.
        -- inversion H; subst. cbn [forallb] in Hb.
           apply andb_true_iff in Hb as [_ Hb]. now exists before, after.
Qed.

Lemma get_device_first_joystick_witness :
  [keyboard_device; joystick_device; busy_device]
  = [keyboard_device] ++ joystick_device :: [busy_device]
  /\ forallb (fun d => negb (is_joystick d)) [keyboard_device] = true
  /\ is_joystick joystick_device = true
  /\ _get_device [keyboard_device; joystick_device; busy_device] = inr joystick_device.
Proof.
  assert (H1 : [keyboard_device; joystick_device; busy_device]
               = [keyboard_device] ++ joystick_device :: [busy_device])
    by reflexivity.
  assert (H2 : forallb (fun d => negb (is_joystick d)) [keyboard_device] = true)
    by (vm_compute; reflexivity).
  assert (H3 : is_joystick joystick_device = true) by (vm_compute; reflexivity).
  split; [exact H1|]. split; [exact H2|]. split; [exact H3|].
  destruct (get_device_first_joystick [keyboard_device; joystick_device; busy_device])
    as [Hfirst _].
  apply Hfirst. exists [keyboard_device], [busy_device]. now repeat split.
Defined.

(** X3. Batches compose: a deferred call followed by a second call does
    what one call with the two batches in a row does, value, state and
    exception alike, for [update_axis] and for [update_button]. *)
Theorem deferred_batches_compose (self : Joystick) (defer skip : bool) :
  (forall axis1 axis2,
     (update_axis axis1 true skip >> update_axis axis2 defer skip) self
     = update_axis (axis1 ++ axis2) defer skip self)
  /\ (forall button1 button2,
     (update_button button1 true skip >> update_button button2 defer skip) self
     = update_button (button1 ++ button2) defer skip self).
Proof.
  split; intros l1 l2.
  - unfold update_axis, bind. rewrite for_each_app. unfold bind.
    now destruct (for_each (update_axis_pair skip) l1 self) as [[e|u] s].
  - unfold update_button, bind. rewrite for_each_app. unfold bind.
    now destruct (for_each (update_button_pair skip) l1 self) as [[e|u] s].
Qed.

(** X4. [update_axis] never changes a button byte and [update_button] never
    changes an axis value, and neither changes the configuration or the
    report format, whatever the batch and however the call ends. *)
Theorem updates_keep_to_their_inputs (self : Joystick) (defer skip : bool) :
  (forall axis,
     _button_states (update_axis axis defer skip self).2 = _button_states self
     /\ cls (update_axis axis defer skip self).2 = cls self
     /\ _format (update_axis axis defer skip self).2 = _format self)
  /\ (forall button,
     _axis_states (update_button button defer skip self).2 = _axis_states self
     /\ cls (update_button button defer skip self).2 = cls self
     /\ _format (update_button button defer skip self).2 = _format self).
Proof.
  split.
  - intros axis.
    pose proof (for_each_touches set_axis_states (update_axis_pair skip) axis self
                  (fun _ _ _ => eq_refl) (update_axis_pair_touches skip)) as Ht.
    unfold update_axis, bind.
    destruct (for_each (update_axis_pair skip) axis self) as [[e|u] s]; cbn [snd] in *.
    + destruct Ht as [->|[l ->]]; now cbn.
    + assert (Hs : _button_states s = _button_states self /\ cls s = cls self
                   /\ _format s = _format self)
        by (destruct Ht as [->|[l ->]]; now cbn).
      destruct defer; cbn [negb]; [exact Hs|].
      destruct (update_frame false s) as (H1 & _ & H3 & H4).
      rewrite H1, H3, H4. exact Hs.
  - intros button.
    pose proof (for_each_touches set_button_states (update_button_pair skip) button self
                  (fun _ _ _ => eq_refl) (update_button_pair_touches skip)) as Ht.
    unfold update_button, bind.
    destruct (for_each (update_button_pair skip) button self) as [[e|u] s]; cbn [snd] in *.
    + destruct Ht as [->|[l ->]]; now cbn.
    + assert (Hs : _axis_states s = _axis_states self /\ cls s = cls self
                   /\ _format s = _format self)
        by (destruct Ht as [->|[l ->]]; now cbn).
      destruct defer; cbn [negb]; [exact Hs|].
      destruct (update_frame false s) as (H1 & H2 & _ & H4).
      rewrite H1, H2, H4. exact Hs.
Qed.

Lemma serialize_again (self other : Joystick) (report : list Z) :
  serialize self = Some report ->
  _format other = _format self ->
  _axis_states other = _axis_states self ->
  _button_states other = _button_states self ->
  _report other = report ->
  serialize other = Some report.
Proof.
  unfold serialize. intros Hser Hf Ha Hb Hr. rewrite Hf, Ha, Hb, Hr.
  apply pack_into_some in Hser as (Hsize & Hroom & Hbytes & Hreport).
  unfold struct.pack_into. rewrite Hsize, Nat.eqb_refl, Hbytes.
  assert (Hlen : (length (_axis_states self ++ _button_states self)
                  <= length report)%nat).
  { rewrite Hreport. rewrite (length_app (_ ++ _)). lia. }
  apply Nat.leb_le in Hlen. cbn [Nat.add]. rewrite Hlen.
  cbn [andb take app]. f_equal.
  assert (Hdrop : drop (length (_axis_states self ++ _button_states self)) report
                  = drop (length (_axis_states self ++ _button_states self))
                         (_report self)).
  { rewrite Hreport at 1. apply drop_app_length. }
  rewrite Hdrop. symmetry. exact Hreport.
Qed.

Lemma set_report_same (self : Joystick) : set_report (_report self) self = self.
Proof. now destruct self. Qed.

(** X5. A report cycle that returns leaves the object settled: the report
    buffer holds the axis values, then the button bytes, then what the
    buffer held behind them; the last sent report equals the buffer; and
    an unforced cycle run right after it changes nothing and sends
    nothing. *)
Theorem update_settles (always : bool) (self : Joystick) :
  (update always self).1 = inr tt ->
  _report (update always self).2
  = _axis_states self ++ _button_states self
    ++ drop (length (_axis_states self) + length (_button_states self)) (_report self)
  /\ _last_report (update always self).2 = _report (update always self).2
  /\ transmitted (update always self).2
  /\ update false (update always self).2 = (inr tt, (update always self).2).
Proof.
  intros Hok.
  destruct (serialize self) as [report|] eqn:Hser;
    [|unfold update in Hok; unfold serialize in Hser; now rewrite Hser in Hok].
  assert (Hfields : _report (update always self).2 = report
                    /\ _last_report (update always self).2 = report).
  { rewrite (update_run always self report Hser) in *.
    destruct (always || negb (bool_decide (_last_report self = report))) eqn:E.
    - destruct (send_report _ _) as [[e|u] d]; [discriminate|]. now cbn.
    - apply orb_false_iff in E as [_ E]. apply negb_false_iff in E.
      apply bool_decide_eq_true in E. now cbn. }
  destruct Hfields as [Hr Hl].
  destruct (update_frame always self) as (_ & Ha & Hb & Hf).
  pose proof (serialize_again self _ report Hser Hf Ha Hb Hr) as Hser'.
  pose proof (pack_into_some _ _ _ _ Hser) as (_ & _ & _ & Hreport).
  rewrite length_app, <- app_assoc in Hreport.
  split; [now rewrite Hr|]. split; [now rewrite Hr, Hl|].
  split; [unfold transmitted; now rewrite Hser', Hl|].
  rewrite (update_run false _ report Hser'). cbn [orb].
  rewrite Hl, bool_decide_eq_true_2 by reflexivity. cbn [negb].
  now rewrite <- Hr, set_report_same.
Qed.

Lemma update_settles_witness :
  (update true (constructed six_axes)).1 = inr tt
  /\ update false (update true (constructed six_axes)).2
     = (inr tt, (update true (constructed six_axes)).2).
Proof.
  assert (H : (update true (constructed six_axes)).1 = inr tt)
    by (vm_compute; reflexivity).
  split; [exact H|]. apply (update_settles true (constructed six_axes) H).
Defined.

(** X6. A transmission that fails is not recorded: when [send_report]
    raises [OSError] the cycle raises it, the report buffer holds the new
    serialization, and the last sent report and the list of transmitted
    reports are unchanged; if the serialization differs from the last sent
    report, the next unforced cycle sends it once the device takes
    reports. *)
Theorem failed_transmission_is_sent_next (always : bool) (self : Joystick)
    (report : list Z) (fs : list bool) :
  serialize self = Some report ->
  faults (_device self) = true :: fs ->
  always = true \/ report <> _last_report self ->
  (update always self).1 = inl OSError
  /\ _report (update always self).2 = report
  /\ _last_report (update always self).2 = _last_report self
  /\ sent (_device (update always self).2) = sent (_device self)
  /\ faults (_device (update always self).2) = fs
  /\ (report <> _last_report self ->
      accepts (_device (update always self).2) = true ->
      (update false (update always self).2).1 = inr tt
      /\ sent (_device (update false (update always self).2).2)
         = sent (_device self) ++ [report]
      /\ _last_report (update false (update always self).2).2 = report).
Proof.
  intros Hser Hf Hsend.
  assert (Hrun : update always self
                 = (inl OSError,
                    set_device {| usage_page := usage_page (_device self);
                                  usage := usage (_device self);
                                  has_send_report := has_send_report (_device self);
                                  faults := fs; sent := sent (_device self) |}
                      (set_report report self))).
  { rewrite (update_run always self report Hser).
    replace (always || negb (bool_decide (_last_report self = report))) with true.
    - unfold send_report. now rewrite Hf.
    - symmetry. destruct Hsend as [->|Hne]; [reflexivity|].
      rewrite bool_decide_eq_false_2 by congruence. apply orb_true_r. }
  rewrite Hrun. cbn [fst snd]. fields. cbn [sent faults].
  repeat (split; [reflexivity|]).
  intros Hne Hacc.
  match goal with |- context [update false ?s] => set (s1 := s) in * end.
  assert (Hser1 : serialize s1 = Some report)
    by (apply (serialize_again self s1 report Hser); reflexivity).
  rewrite (update_run false s1 report Hser1). cbn [orb].
  replace (bool_decide (_last_report s1 = report)) with false
    by (symmetry; apply bool_decide_eq_false_2; subst s1; fields; congruence).
  cbn [negb].
  destruct (send_report_accepted (_device s1) report Hacc) as [Hok Hsent].
  destruct (send_report (_device s1) report) as [[e|u] d]; [discriminate|].
  cbn [fst snd] in *. fields. destruct u. now rewrite Hsent.
Qed.

Lemma failed_transmission_is_sent_next_witness :
  serialize (set_device busy_device
               (update_axis [(0, 7)] true false (constructed six_axes)).2)
  = Some [7; 128; 128; 128; 128; 128; 0; 0]
  /\ faults (_device (set_device busy_device
               (update_axis [(0, 7)] true false (constructed six_axes)).2))
     = true :: []
  /\ [7; 128; 128; 128; 128; 128; 0; 0]
     <> _last_report (set_device busy_device
                        (update_axis [(0, 7)] true false (constructed six_axes)).2)
  /\ (update false (set_device busy_device
               (update_axis [(0, 7)] true false (constructed six_axes)).2)).1
     = inl OSError.
Proof.
  assert (H1 : serialize (set_device busy_device
                  (update_axis [(0, 7)] true false (constructed six_axes)).2)
               = Some [7; 128; 128; 128; 128; 128; 0; 0]) by (vm_compute; reflexivity).
  assert (H2 : faults (_device (set_device busy_device
                  (update_axis [(0, 7)] true false (constructed six_axes)).2))
               = true :: []) by (vm_compute; reflexivity).
  assert (H3 : [7; 128; 128; 128; 128; 128; 0; 0]
               <> _last_report (set_device busy_device
                    (update_axis [(0, 7)] true false (constructed six_axes)).2))
    by (vm_compute; discriminate).
  split; [exact H1|]. split; [exact H2|]. split; [exact H3|].
  apply (failed_transmission_is_sent_next false _ _ [] H1 H2 (or_intror H3)).
Defined.

(** X7. A construction that returns an object returns it well-formed, with
    the configuration the scan loaded and a report length that is not zero,
    every axis at [128] and every button byte at [0], and after exactly one
    transmission on the device [_get_device] found: the idle report, which
    the report buffer and the last sent report both hold. *)
Theorem init_returns_idle_object (c : JoystickClass)
    (boot_out : option (list string)) (devices : list Device) (self : Joystick) :
  0 <= _num_axes c -> 0 <= _num_buttons c -> 0 <= _report_size c ->
  __init__ c boot_out devices = inr self ->
  wf self
  /\ cls self = (load_configuration c boot_out).2
  /\ _report_size (cls self) <> 0
  /\ _axis_states self = repeat 128 (Z.to_nat (num_axes self))
  /\ _button_states self = repeat 0 (Z.to_nat (button_banks (num_buttons self)))
  /\ _report self = idle_report self
  /\ _last_report self = idle_report self
  /\ exists device,
       _get_device devices = inr device
       /\ sent (_device self) = sent device ++ [idle_report self].
Proof.
  intros Ha Hb Hr Hinit.
  destruct (init_wf c boot_out devices self Ha Hb Hr Hinit)
    as (Hlast & Hwf & Hcls & Haxes & Hbuttons & Htr & device & Hdev & Hsent).
  assert (Hsize : _report_size (cls self) <> 0).
  { rewrite Hcls. intros H0.
    unfold __init__, load_configuration in *.
    destruct boot_out as [lines|]; [|discriminate].
    destruct (scan_lines c lines) as [[e|u] c']; [discriminate|].
    destruct (_report_size c' =? 0) eqn:E; [discriminate|].
    cbn in H0. apply Z.eqb_neq in E. contradiction. }
  unfold transmitted in Htr. rewrite (serialize_wf self Hwf) in Htr.
  injection Htr as Htr.
  assert (Hidle : _last_report self = idle_report self).
  { rewrite <- Htr. unfold idle_report.
    pose proof (wf_elim self Hwf) as (_ & _ & Hla & Hlb & _).
    rewrite Haxes at 1. rewrite Hbuttons at 1. now rewrite Hla, Hlb. }
  split; [exact Hwf|]. split; [exact Hcls|]. split; [exact Hsize|].
  split; [exact Haxes|]. split; [exact Hbuttons|].
  split; [now rewrite <- Hlast|]. split; [exact Hidle|].
  exists device. split; [exact Hdev|]. now rewrite Hsent, <- Hlast, Hidle.
Qed.

Lemma init_returns_idle_object_witness :
  0 <= _num_axes class_defaults /\ 0 <= _num_buttons class_defaults
  /\ 0 <= _report_size class_defaults
  /\ __init__ class_defaults six_axes [keyboard_device; joystick_device]
     = inr (constructed six_axes)
  /\ wf (constructed six_axes)
  /\ _report (constructed six_axes) = idle_report (constructed six_axes).
Proof.
  assert (H1 : 0 <= _num_axes class_defaults) by (vm_compute; discriminate).
  assert (H2 : 0 <= _num_buttons class_defaults) by (vm_compute; discriminate).
  assert (H3 : 0 <= _report_size class_defaults) by (vm_compute; discriminate).
  assert (H4 : __init__ class_defaults six_axes [keyboard_device; joystick_device]
               = inr (constructed six_axes)) by (vm_compute; reflexivity).
  split; [exact H1|]. split; [exact H2|]. split; [exact H3|]. split; [exact H4|].
  pose proof (init_returns_idle_object class_defaults six_axes
                [keyboard_device; joystick_device] (constructed six_axes)
                H1 H2 H3 H4) as (Hwf & _ & _ & _ & _ & Hrep & _).
  split; [exact Hwf|exact Hrep].
Defined.

(** X8. Well-formedness is kept: after a validated [update_axis], after
    [update_button] (validated or not), after a report cycle and after
    [reset_all], a well-formed object is well-formed again, whether the call
    returned or raised. *)
Theorem well_formed_is_kept (self : Joystick) :
  wf self ->
  (forall axis defer, wf (update_axis axis defer false self).2)
  /\ (forall button defer skip, wf (update_button button defer skip self).2)
  /\ (forall always, wf (update always self).2)
  /\ wf (reset_all self).2.
Proof.
  exact (operations_keep_wf self).
Qed.

Lemma well_formed_is_kept_witness :
  wf (constructed six_axes)
  /\ wf (update_axis [(0, 7); (9, 1)] false false (constructed six_axes)).2
  /\ wf (update_button [(3, true); (40, true)] false true (constructed six_axes)).2.
Proof.
  assert (Hwf : wf (constructed six_axes)) by (vm_compute; reflexivity).
  split; [exact Hwf|].
  pose proof (well_formed_is_kept (constructed six_axes) Hwf) as (Ha & Hb & _).
  split; [apply Ha|apply Hb].
Defined.

(** ** Batches as maps: the last pair for an input decides *)

Lemma same_button (b i : Z) :
  b / 8 = i / 8 -> b mod 8 = i mod 8 -> b = i.
Proof.
  intros Hd Hm. rewrite (Z.div_mod b 8), (Z.div_mod i 8) by lia. now rewrite Hd, Hm.
Qed.

Lemma button_pressed_step (nb : Z) (l : list Z) (b i : Z) (v : bool) :
  length l = Z.to_nat (button_banks nb) ->
  0 <= b < nb -> 0 <= i < nb ->
  button_pressed
    (<[Z.to_nat (b / 8) := set_bit v (b mod 8) (nth (Z.to_nat (b / 8)) l 0)]> l) i
  = if b =? i then v else button_pressed l i.
Proof.
  intros Hlen Hb Hi. unfold button_pressed.
  pose proof (bank_in_range _ _ Hb) as Hbank.
  pose proof (bank_in_range _ _ Hi) as Hbank'.
  destruct (Z.eq_dec (b / 8) (i / 8)) as [Hd|Hd].
  - rewrite <- Hd.
    assert (Hlt : (Z.to_nat (b / 8) < length l)%nat) by lia.
    rewrite (nth_lookup_Some _ _ 0 _
               (list_lookup_insert_eq l _
                  (set_bit v (b mod 8) (nth (Z.to_nat (b / 8)) l 0)) Hlt)).
    rewrite set_bit_spec by (apply Z.mod_pos_bound; lia).
    destruct (b =? i) eqn:E.
    + apply Z.eqb_eq in E. subst i. now rewrite Z.eqb_refl.
    + apply Z.eqb_neq in E.
      replace (i mod 8 =? b mod 8) with false; [reflexivity|].
      symmetry. apply Z.eqb_neq. intros Hm. apply E. now apply same_button.
  - replace (b =? i) with false by (symmetry; apply Z.eqb_neq; congruence).
    rewrite !nth_lookup, list_lookup_insert_ne by lia. reflexivity.
Qed.

Lemma apply_buttons_pressed (nb : Z) (pairs : list (Z * bool)) (l : list Z) (i : Z) :
  length l = Z.to_nat (button_banks nb) ->
  forallb (fun p => (0 <=? fst p) && (fst p <? nb)) pairs = true ->
  0 <= i < nb ->
  button_pressed (apply_buttons pairs l) i
  = match last_value i pairs with
    | Some v => v
    | None => button_pressed l i
    end.
Proof.
  revert l. induction pairs as [|[b v] pairs IH]; intros l Hlen Hok Hi; [reflexivity|].
  cbn [forallb fst] in Hok. apply andb_true_iff in Hok as [Hb Hok]. bool_to_prop.
  unfold apply_buttons in *. cbn [fold_left last_value fst snd].
  rewrite IH by (rewrite ?length_insert; assumption).
  destruct (last_value i pairs) as [w|]; [reflexivity|].
  rewrite (button_pressed_step nb) by (assumption || lia).
  now destruct (b =? i).
Qed.

(** X9. A validated batch of [update_button] acts as a map: every existing
    button ends pressed or released as the last pair of the batch that
    names it says, and a button no pair names keeps its state. *)
Theorem update_button_last_value_wins (self : Joystick)
    (button : list (Z * bool)) (defer skip : bool) (i : Z) :
  wf self ->
  forallb (button_pair_ok (cls self)) button = true ->
  0 <= i < num_buttons self ->
  button_pressed (_button_states (update_button button defer skip self).2) i
  = match last_value i button with
    | Some v => v
    | None => button_pressed (_button_states self) i
    end.
Proof.
  intros Hwf Hok Hi. apply wf_elim in Hwf as (_ & _ & _ & Hlen & _).
  rewrite update_button_states, (button_loop_applies skip button self Hlen Hok).
  fields. apply (apply_buttons_pressed (num_buttons self)); [exact Hlen| |exact Hi].
  clear -Hok. induction button as [|p button IH]; [reflexivity|].
  cbn [forallb] in *. apply andb_true_iff in Hok as [Hp Hok].
  rewrite (IH Hok), andb_true_r.
  apply button_pair_ok_iff in Hp. unfold num_buttons.
  apply andb_true_iff. split; [apply Z.leb_le|apply Z.ltb_lt]; lia.
Qed.

Lemma update_button_last_value_wins_witness :
  wf (constructed six_axes)
  /\ forallb (button_pair_ok (cls (constructed six_axes)))
       [(3, true); (12, true); (3, false)] = true
  /\ 0 <= 3 < num_buttons (constructed six_axes)
  /\ button_pressed
       (_button_states
          (update_button [(3, true); (12, true); (3, false)] false false
             (constructed six_axes)).2) 3
     = false.
Proof.
  assert (Hwf : wf (constructed six_axes)) by (vm_compute; reflexivity).
  assert (Hok : forallb (button_pair_ok (cls (constructed six_axes)))
                  [(3, true); (12, true); (3, false)] = true)
    by (vm_compute; reflexivity).
  assert (Hi : 0 <= 3 < num_buttons (constructed six_axes))
    by (vm_compute; split; [discriminate|reflexivity]).
  split; [exact Hwf|]. split; [exact Hok|]. split; [exact Hi|].
  apply (update_button_last_value_wins (constructed six_axes)
           [(3, true); (12, true); (3, false)] false false 3 Hwf Hok Hi).
Defined.

Lemma reverse_sliders_injective (n a b : Z) :
  0 <= a < n -> 0 <= b < n ->
  reverse_sliders n a = reverse_sliders n b -> a = b.
Proof.
  unfold reverse_sliders. intros Ha Hb.
  destruct (n >? 7) eqn:En; destruct (a >? 5) eqn:Ea; destruct (b >? 5) eqn:Eb;
    cbn [andb]; bool_to_prop; lia.
Qed.

Lemma apply_axes_lookup (n : Z) (pairs : list (Z * Z)) (l : list Z) (i : Z) :
  length l = Z.to_nat n ->
  forallb (fun p => (0 <=? fst p) && (fst p <? n)) pairs = true ->
  0 <= i < n ->
  apply_axes n pairs l !! Z.to_nat (reverse_sliders n i)
  = match last_value i pairs with
    | Some v => Some v
    | None => l !! Z.to_nat (reverse_sliders n i)
    end.
Proof.
  revert l. induction pairs as [|[a v] pairs IH]; intros l Hlen Hok Hi; [reflexivity|].
  cbn [forallb fst] in Hok. apply andb_true_iff in Hok as [Ha Hok]. bool_to_prop.
  unfold apply_axes in *. cbn [fold_left last_value fst snd].
  rewrite IH by (rewrite ?length_insert; assumption).
  destruct (last_value i pairs) as [w|]; [reflexivity|].
  pose proof (reverse_sliders_range n a ltac:(lia)) as Hra.
  pose proof (reverse_sliders_range n i Hi) as Hri.
  destruct (a =? i) eqn:E.
  - apply Z.eqb_eq in E. subst i. apply list_lookup_insert_eq. lia.
  - apply Z.eqb_neq in E. apply list_lookup_insert_ne.
    intros Heq. apply E. apply (reverse_sliders_injective n); try lia.
Qed.

Lemma length_apply_axes (n : Z) (pairs : list (Z * Z)) (l : list Z) :
  length (apply_axes n pairs l) = length l.
Proof.
  unfold apply_axes. revert l.
  induction pairs as [|p pairs IH]; intros l; [reflexivity|].
  cbn [fold_left]. now rewrite IH, length_insert.
Qed.

Lemma update_report_layout (always : bool) (self : Joystick) :
  (update always self).1 = inr tt ->
  _report (update always self).2
  = _axis_states self ++ _button_states self
    ++ drop (length (_axis_states self) + length (_button_states self)) (_report self).
Proof.
  intros Hok.
  destruct (serialize self) as [report|] eqn:Hser;
    [|unfold update in Hok; unfold serialize in Hser; now rewrite Hser in Hok].
  pose proof (pack_into_some _ _ _ _ Hser) as (_ & _ & _ & Hreport).
  rewrite length_app, <- app_assoc in Hreport. rewrite <- Hreport.
  rewrite (update_run always self report Hser) in *.
  destruct (always || _); [|reflexivity].
  now destruct (send_report _ _) as [[e|u] d].
Qed.

(** X10. A validated batch of [update_axis] with indices that are not
    negative acts as a map on the positions the axes are kept at: the
    position of every axis holds the value of the last pair that names the
    axis, or what it held when no pair names it; and when the call runs its
    report cycle and returns, the report buffer has that value at that
    byte. *)
Theorem update_axis_last_value_wins (self : Joystick)
    (axis : list (Z * Z)) (defer skip : bool) (i : Z) :
  wf self ->
  forallb (fun p => axis_pair_ok (cls self) p && (0 <=? fst p)) axis = true ->
  0 <= i < num_axes self ->
  _axis_states (update_axis axis defer skip self).2
    !! Z.to_nat (reverse_sliders (num_axes self) i)
  = match last_value i axis with
    | Some v => Some v
    | None => _axis_states self !! Z.to_nat (reverse_sliders (num_axes self) i)
    end
  /\ (defer = false -> (update_axis axis defer skip self).1 = inr tt ->
      _report (update_axis axis defer skip self).2
        !! Z.to_nat (reverse_sliders (num_axes self) i)
      = _axis_states (update_axis axis defer skip self).2
          !! Z.to_nat (reverse_sliders (num_axes self) i)).
Proof.
  intros Hwf Hok Hi. apply wf_elim in Hwf as (_ & _ & Hlen & _).
  assert (Hrange : forallb (fun p => (0 <=? fst p) && (fst p <? num_axes self)) axis
                   = true).
  { clear -Hok. induction axis as [|p axis IH]; [reflexivity|].
    cbn [forallb] in *. apply andb_true_iff in Hok as [Hp Hok].
    rewrite (IH Hok), andb_true_r. unfold axis_pair_ok, num_axes in *.
    bool_to_prop. apply andb_true_iff. split; [apply Z.leb_le|apply Z.ltb_lt]; lia. }
  split.
  - rewrite update_axis_states, (axis_loop_applies skip axis self Hlen Hok).
    fields. now apply apply_axes_lookup.
  - intros -> Hret. unfold update_axis, bind in *.
    rewrite (axis_loop_applies skip axis self Hlen Hok) in *. cbn [negb] in *.
    rewrite (update_report_layout false _ Hret).
    destruct (update_frame false
                (set_axis_states
                   (apply_axes (num_axes self) axis (_axis_states self)) self))
      as (_ & -> & _).
    fields. apply lookup_app_l.
    rewrite length_apply_axes.
    pose proof (reverse_sliders_range _ _ Hi). lia.
Qed.

Lemma update_axis_last_value_wins_witness :
  wf (constructed thirteen_axes)
  /\ forallb (fun p => axis_pair_ok (cls (constructed thirteen_axes)) p && (0 <=? fst p))
       [(12, 200); (3, 5); (12, 9)] = true
  /\ 0 <= 12 < num_axes (constructed thirteen_axes)
  /\ _axis_states
       (update_axis [(12, 200); (3, 5); (12, 9)] false false
          (constructed thirteen_axes)).2
       !! Z.to_nat (reverse_sliders (num_axes (constructed thirteen_axes)) 12)
     = Some 9.
Proof.
  assert (Hwf : wf (constructed thirteen_axes)) by (vm_compute; reflexivity).
  assert (Hok : forallb (fun p => axis_pair_ok (cls (constructed thirteen_axes)) p
                                  && (0 <=? fst p))
                  [(12, 200); (3, 5); (12, 9)] = true) by (vm_compute; reflexivity).
  assert (Hi : 0 <= 12 < num_axes (constructed thirteen_axes))
    by (vm_compute; split; [discriminate|reflexivity]).
  split; [exact Hwf|]. split; [exact Hok|]. split; [exact Hi|].
  destruct (update_axis_last_value_wins (constructed thirteen_axes)
              [(12, 200); (3, 5); (12, 9)] false false 12 Hwf Hok Hi) as [H _].
  exact H.
Defined.

(** X11. On the indices [0 .. n-1] of [n] axes the slider reversal is a
    permutation: it keeps every index in range, leaves the indices [0..5]
    (and every index when there are at most seven axes) where they are,
    maps the indices from 6 on onto themselves in reverse order and is its
    own inverse there, and never sends two indices to one position. *)
Theorem reverse_sliders_permutes (n a : Z) :
  0 <= a < n ->
  0 <= reverse_sliders n a < n
  /\ (a <= 5 \/ n <= 7 -> reverse_sliders n a = a)
  /\ (n > 7 -> a > 5 ->
      reverse_sliders n a = n - a + 5
      /\ 6 <= reverse_sliders n a
      /\ reverse_sliders n (reverse_sliders n a) = a)
  /\ (forall b, 0 <= b < n -> reverse_sliders n a = reverse_sliders n b -> a = b).
Proof.
  intros Ha. split; [now apply reverse_sliders_range|]. split; [|split].
  - unfold reverse_sliders. intros H.
    destruct (n >? 7) eqn:En; destruct (a >? 5) eqn:Ea; cbn [andb];
      bool_to_prop; lia.
  - intros Hn H5. unfold reverse_sliders.
    replace (n >? 7) with true by (symmetry; apply Z.gtb_lt; lia).
    replace (a >? 5) with true by (symmetry; apply Z.gtb_lt; lia).
    cbn [andb].
    replace (n - a + 5 >? 5) with true by (symmetry; apply Z.gtb_lt; lia).
    lia.
  - intros b Hb. now apply reverse_sliders_injective.
Qed.

Lemma reverse_sliders_permutes_witness :
  0 <= 8 < 13
  /\ reverse_sliders 13 8 = 10
  /\ reverse_sliders 13 (reverse_sliders 13 8) = 8.
Proof.
  assert (H : 0 <= 8 < 13) by lia.
  split; [exact H|].
  destruct (reverse_sliders_permutes 13 8 H) as (_ & _ & Hrev & _).
  destruct (Hrev ltac:(lia) ltac:(lia)) as (H1 & _ & H2).
  split; [exact H1|exact H2].
Defined.

Lemma load_configuration_error (c : JoystickClass) (boot_out : option (list string))
    (e : exn) :
  (load_configuration c boot_out).1 = inl e -> e = ConfigurationError.
Proof.
  unfold load_configuration. destruct boot_out as [lines|]; [|now intros [= <-]].
  destruct (scan_lines c lines) as [[e'|u] c'] eqn:E.
  - destruct (scan_lines_error c lines e') as [-> _]; [now rewrite E|].
    now intros [= <-].
  - destruct (_report_size c' =? 0); [now intros [= <-]|discriminate].
Qed.

(** X12. The configuration scan at its edges: a file that cannot be opened
    raises the configuration error and leaves the class attributes alone;
    when no line has the marker the attributes are left alone too, and the
    scan raises the configuration error exactly when the report length they
    hold is zero; every error of the scan is the configuration error; and
    a scan that returns leaves a report length that is not zero. *)
Theorem load_configuration_edges (c : JoystickClass) :
  load_configuration c None = (inl ConfigurationError, c)
  /\ (forall lines,
        forallb (fun l => negb (Str.contains "JoystickXL" l)) lines = true ->
        load_configuration c (Some lines)
        = (if _report_size c =? 0 then inl ConfigurationError else inr tt, c))
  /\ (forall boot_out e,
        (load_configuration c boot_out).1 = inl e -> e = ConfigurationError)
  /\ (forall boot_out,
        (load_configuration c boot_out).1 = inr tt ->
        _report_size (load_configuration c boot_out).2 <> 0).
Proof.
  split; [reflexivity|]. split; [|split].
  - intros lines Hnone. unfold load_configuration.
    rewrite <- (app_nil_r lines), (scan_lines_skip c lines [] Hnone).
    cbn [scan_lines]. now destruct (_report_size c =? 0).
  - intros boot_out e. apply load_configuration_error.
  - intros boot_out. unfold load_configuration.
    destruct boot_out as [lines|]; [|discriminate].
    destruct (scan_lines c lines) as [[e|u] c']; [discriminate|].
    destruct (_report_size c' =? 0) eqn:E; [discriminate|].
    intros _. now apply Z.eqb_neq in E.
Qed.

Lemma load_configuration_edges_witness :
  forallb (fun l => negb (Str.contains "JoystickXL" l))
    ["Adafruit CircuitPython"; "Board ID:qtpy"] = true
  /\ load_configuration class_defaults
       (Some ["Adafruit CircuitPython"; "Board ID:qtpy"])
     = (inl ConfigurationError, class_defaults)
  /\ (load_configuration class_defaults six_axes).1 = inr tt
  /\ _report_size (load_configuration class_defaults six_axes).2 <> 0.
Proof.
  assert (H : forallb (fun l => negb (Str.contains "JoystickXL" l))
                ["Adafruit CircuitPython"; "Board ID:qtpy"] = true)
    by (vm_compute; reflexivity).
  assert (H' : (load_configuration class_defaults six_axes).1 = inr tt)
    by (vm_compute; reflexivity).
  destruct (load_configuration_edges class_defaults) as (_ & Hnone & _ & Hsize).
  split; [exact H|]. split; [apply (Hnone _ H)|].
  split; [exact H'|apply (Hsize _ H')].
Defined.

Lemma get_device_error (devices : list Device) (e : exn) :
  _get_device devices = inl e -> e = DeviceNotFound.
Proof.
  induction devices as [|d devices IH]; cbn [_get_device]; [now intros [= <-]|].
  now destruct (is_joystick d).
Qed.

(** X13. The handler for a first transmission that fails does not retry:
    construction never raises [OSError], and when the configuration loads,
    the buffer has room for the report and the first [send_report] of the
    device found raises [OSError], construction raises the [NameError] of
    the unbound name [time] and returns no object. *)
Theorem init_does_not_retry (c : JoystickClass) (boot_out : option (list string))
    (devices : list Device) :
  __init__ c boot_out devices <> inl OSError
  /\ (forall c' device fs,
        load_configuration c boot_out = (inr tt, c') ->
        _get_device devices = inr device ->
        faults device = true :: fs ->
        0 <= _num_axes c' -> 0 <= _num_buttons c' ->
        _num_axes c' + button_banks (_num_buttons c') <= _report_size c' ->
        __init__ c boot_out devices = inl (NameError "time")).
Proof.
  split.
  - unfold __init__.
    destruct (load_configuration c boot_out) as [[e|u] c'] eqn:Hload.
    + pose proof (load_configuration_error c boot_out e) as He.
      rewrite Hload in He. rewrite (He eq_refl). discriminate.
    + destruct (_get_device devices) as [e|device] eqn:Hdev.
      * rewrite (get_device_error devices e Hdev). discriminate.
      * unfold bytearray. destruct (_report_size c' <? 0); [discriminate|].
        destruct (Nat.iter (Py.range (_num_axes c')) _ _) as [axes fmt1].
        destruct (Nat.iter (Py.range (button_banks (_num_buttons c'))) _ _)
          as [buttons fmt2].
        unfold try_except_OSError.
        match goal with |- context [reset_all ?s] =>
          destruct (reset_all s) as [[e|u'] s1] end.
        -- destruct e; discriminate.
        -- discriminate.
  - intros c' device fs Hload Hdev Hf Ha Hb Hroom. unfold __init__.
    rewrite Hload, Hdev. unfold bytearray.
    replace (_report_size c' <? 0) with false
      by (symmetry; apply Z.ltb_ge; pose proof (button_banks_nonneg _ Hb); lia).
    pose proof (iter_append_state (Py.range (_num_axes c')) Axis.IDLE [] "<" 0 eq_refl)
      as [Hax Hf1].
    destruct (Nat.iter (Py.range (_num_axes c')) _ _) as [axes fmt1].
    cbn [fst snd app Nat.add] in Hax, Hf1. subst axes.
    pose proof (iter_append_state (Py.range (button_banks (_num_buttons c'))) 0
                  [] fmt1 _ Hf1) as [Hbt Hf2].
    destruct (Nat.iter (Py.range (button_banks (_num_buttons c'))) _ _)
      as [buttons fmt2].
    cbn [fst snd app] in Hbt, Hf2. subst buttons. unfold Py.range in *.
    set (self0 := {| cls := c'; _device := device; _report := _;
                     _last_report := _; _format := fmt2; _axis_states := _;
                     _button_states := _ |}).
    assert (Hwf : wf self0).
    { pose proof (button_banks_nonneg _ Hb).
      apply wf_intro; subst self0; open_fields; rewrite ?repeat_length;
        try assumption; try reflexivity; try lia;
        apply forallb_repeat; reflexivity. }
    unfold try_except_OSError.
    rewrite (reset_all_run self0 Hwf).
    pose proof (reset_state_wf self0 Hwf) as Hwf1.
    rewrite (update_run true _ _ (serialize_wf _ Hwf1)). cbn [orb].
    unfold send_report at 1. subst self0. fields. rewrite Hf.
    reflexivity.
Qed.

Lemma init_does_not_retry_witness :
  load_configuration class_defaults six_axes
  = (inr tt, {| _num_axes := 6; _num_buttons := 13; _report_size := 8 |})
  /\ _get_device [keyboard_device; busy_device] = inr busy_device
  /\ faults busy_device = true :: []
  /\ __init__ class_defaults six_axes [keyboard_device; busy_device]
     = inl (NameError "time").
Proof.
  assert (H1 : load_configuration class_defaults six_axes
               = (inr tt, {| _num_axes := 6; _num_buttons := 13; _report_size := 8 |}))
    by (vm_compute; reflexivity).
  assert (H2 : _get_device [keyboard_device; busy_device] = inr busy_device)
    by (vm_compute; reflexivity).
  assert (H3 : faults busy_device = true :: []) by reflexivity.
  split; [exact H1|]. split; [exact H2|]. split; [exact H3|].
  destruct (init_does_not_retry class_defaults six_axes [keyboard_device; busy_device])
    as [_ H].
  apply (H _ _ _ H1 H2 H3); vm_compute; discriminate.
Defined.

Lemma buttons_in_range (c : JoystickClass) (pairs : list (Z * bool)) :
  forallb (button_pair_ok c) pairs = true ->
  forallb (fun p => (0 <=? fst p) && (fst p <? _num_buttons c)) pairs = true.
Proof.
  induction pairs as [|p pairs IH]; [reflexivity|].
  cbn [forallb]. intros H. apply andb_true_iff in H as [Hp H].
  rewrite (IH H), andb_true_r. apply button_pair_ok_iff in Hp.
  apply andb_true_iff. split; [apply Z.leb_le|apply Z.ltb_lt]; lia.
Qed.

Lemma axes_in_range (c : JoystickClass) (pairs : list (Z * Z)) :
  forallb (fun p => axis_pair_ok c p && (0 <=? fst p)) pairs = true ->
  forallb (fun p => (0 <=? fst p) && (fst p <? _num_axes c)) pairs = true.
Proof.
  induction pairs as [|p pairs IH]; [reflexivity|].
  cbn [forallb]. intros H. apply andb_true_iff in H as [Hp H].
  rewrite (IH H), andb_true_r. unfold axis_pair_ok in Hp. bool_to_prop.
  apply andb_true_iff. split; [apply Z.leb_le|apply Z.ltb_lt]; lia.
Qed.

(** X14. [update_button] fails fast and does not roll back: when the first
    pair that does not pass validation comes after the pairs [before], the
    call raises the error of that pair ("no buttons" or "button out of
    range"); every button a pair of [before] names is left as the last such
    pair says and every other button as it was; axis values, report buffer,
    last sent report and device are untouched, with [defer] false too; and
    the pairs after the failing one have no effect. *)
Theorem update_button_stops_at_first_invalid (self : Joystick)
    (before after : list (Z * bool)) (bad : Z * bool) (defer : bool) :
  wf self ->
  forallb (button_pair_ok (cls self)) before = true ->
  button_pair_ok (cls self) bad = false ->
  (update_button (before ++ bad :: after) defer false self).1
  = inl (if num_buttons self =? 0 then RangeError.NoButtons
         else RangeError.ButtonIndex)
  /\ (update_button (before ++ bad :: after) defer false self).2
     = set_button_states
         (_button_states (update_button before true false self).2) self
  /\ (forall i, 0 <= i < num_buttons self ->
      button_pressed
        (_button_states (update_button (before ++ bad :: after) defer false self).2) i
      = match last_value i before with
        | Some v => v
        | None => button_pressed (_button_states self) i
        end).
Proof.
  intros Hwf Hbefore Hbad.
  rewrite (update_button_fails_fast self before after bad defer Hwf Hbefore Hbad).
  apply wf_elim in Hwf as (_ & _ & _ & Hlen & _).
  cbn [fst snd]. split; [reflexivity|]. split.
  - unfold update_button, bind.
    now rewrite (button_loop_applies false before self Hlen Hbefore).
  - intros i Hi. fields.
    apply (apply_buttons_pressed (num_buttons self)); [exact Hlen| |exact Hi].
    now apply buttons_in_range.
Qed.

Lemma update_button_stops_at_first_invalid_witness :
  wf (constructed ten_buttons)
  /\ forallb (button_pair_ok (cls (constructed ten_buttons))) [(0, true)] = true
  /\ button_pair_ok (cls (constructed ten_buttons)) (999, true) = false
  /\ (update_button ([(0, true)] ++ (999, true) :: [(1, true)]) false false
        (constructed ten_buttons)).1
     = inl (if num_buttons (constructed ten_buttons) =? 0
            then RangeError.NoButtons else RangeError.ButtonIndex).
Proof.
  assert (Hwf : wf (constructed ten_buttons)) by (vm_compute; reflexivity).
  assert (H1 : forallb (button_pair_ok (cls (constructed ten_buttons))) [(0, true)]
               = true) by (vm_compute; reflexivity).
  assert (H2 : button_pair_ok (cls (constructed ten_buttons)) (999, true) = false)
    by (vm_compute; reflexivity).
  split; [exact Hwf|]. split; [exact H1|]. split; [exact H2|].
  apply (update_button_stops_at_first_invalid (constructed ten_buttons)
           [(0, true)] [(1, true)] (999, true) false Hwf H1 H2).
Defined.

(** X15. [update_axis] fails fast and does not roll back, for batches whose
    pairs before the failing one have indices that are not negative: the
    call raises the [ValueError] that validation raises for the failing pair;
    the position of every axis a pair of [before] names holds the value of
    the last such pair and every other position what it held; button bytes,
    report buffer, last sent report and device are untouched; and the pairs
    after the failing one have no effect. *)
Theorem update_axis_stops_at_first_invalid (self : Joystick)
    (before after : list (Z * Z)) (bad : Z * Z) (defer : bool) :
  wf self ->
  forallb (fun p => axis_pair_ok (cls self) p && (0 <=? fst p)) before = true ->
  axis_pair_ok (cls self) bad = false ->
  (exists msg,
     _validate_axis_value (fst bad) (snd bad) self = (inl (ValueError msg), self)
     /\ (update_axis (before ++ bad :: after) defer false self).1
        = inl (ValueError msg))
  /\ (update_axis (before ++ bad :: after) defer false self).2
     = set_axis_states (_axis_states (update_axis before true false self).2) self
  /\ (forall i, 0 <= i < num_axes self ->
      _axis_states (update_axis (before ++ bad :: after) defer false self).2
        !! Z.to_nat (reverse_sliders (num_axes self) i)
      = match last_value i before with
        | Some v => Some v
        | None => _axis_states self !! Z.to_nat (reverse_sliders (num_axes self) i)
        end).
Proof.
  intros Hwf Hbefore Hbad.
  destruct (update_axis_fails_fast self before after bad defer Hwf Hbefore Hbad)
    as (msg & Hv & Hrun).
  rewrite Hrun. apply wf_elim in Hwf as (_ & _ & Hlen & _).
  cbn [fst snd]. split; [now exists msg|]. split.
  - unfold update_axis, bind.
    now rewrite (axis_loop_applies false before self Hlen Hbefore).
  - intros i Hi. fields. apply apply_axes_lookup; [exact Hlen| |exact Hi].
    now apply axes_in_range.
Qed.

Lemma update_axis_stops_at_first_invalid_witness :
  wf (constructed six_axes)
  /\ forallb (fun p => axis_pair_ok (cls (constructed six_axes)) p && (0 <=? fst p))
       [(0, 7)] = true
  /\ axis_pair_ok (cls (constructed six_axes)) (2, 256) = false
  /\ (update_axis ([(0, 7)] ++ (2, 256) :: [(1, 9)]) false false
        (constructed six_axes)).2
     = set_axis_states
         (_axis_states (update_axis [(0, 7)] true false (constructed six_axes)).2)
         (constructed six_axes)
  /\ (update_axis ([(0, 7)] ++ (2, 256) :: [(1, 9)]) false false
        (constructed six_axes)).1
     = inl RangeError.AxisValue.
Proof.
  assert (Hwf : wf (constructed six_axes)) by (vm_compute; reflexivity).
  assert (H1 : forallb (fun p => axis_pair_ok (cls (constructed six_axes)) p
                                 && (0 <=? fst p)) [(0, 7)] = true)
    by (vm_compute; reflexivity).
  assert (H2 : axis_pair_ok (cls (constructed six_axes)) (2, 256) = false)
    by (vm_compute; reflexivity).
  split; [exact Hwf|]. split; [exact H1|]. split; [exact H2|]. split.
  - apply (update_axis_stops_at_first_invalid (constructed six_axes)
             [(0, 7)] [(1, 9)] (2, 256) false Hwf H1 H2).
  - vm_compute; reflexivity.
Defined.

Lemma update_returns (always : bool) (self : Joystick) :
  wf self -> accepts (_device self) = true -> (update always self).1 = inr tt.
Proof.
  intros Hwf Hacc. pose proof (serialize_wf self Hwf) as Hser.
  remember (_axis_states self ++ _button_states self
            ++ drop (length (_axis_states self) + length (_button_states self))
                    (_report self)) as report.
  rewrite (update_run always self report Hser).
  destruct (always || _); [|reflexivity].
  destruct (send_report_accepted (_device self) report Hacc) as [Hok _].
  now destruct (send_report (_device self) report) as [[e|u] d].
Qed.

(** X16. The button batch of the polling loop of [code.py], on a joystick
    with the 13 buttons [boot.py] asks for: every index of the batch passes
    validation, so the call raises no range error, and it returns when the
    device takes the report; afterwards buttons 0 to 6 show the three keys of
    the left and of the right turntable and the euphoria key, buttons 9 and
    12 both show minus, buttons 10 and 11 both show plus, and buttons 7 and
    8 are as they were. *)
Theorem polling_loop_buttons (self : Joystick) (values : Code.ButtonValues)
    (defer : bool) :
  wf self -> num_buttons self = 13 ->
  forallb (button_pair_ok (cls self)) (Code.button_batch values) = true
  /\ (accepts (_device self) = true ->
      (update_button (Code.button_batch values) defer false self).1 = inr tt)
  /\ map (button_pressed
            (_button_states (update_button (Code.button_batch values) defer false self).2))
         [0; 1; 2; 3; 4; 5; 6; 7; 8; 9; 10; 11; 12]
     = [ Code.left_green values; Code.left_red values; Code.left_blue values;
         Code.right_green values; Code.right_red values; Code.right_blue values;
         Code.euphoria values;
         button_pressed (_button_states self) 7;
         button_pressed (_button_states self) 8;
         Code.minus values; Code.plus values; Code.plus values; Code.minus values ].
Proof.
  intros Hwf H13.
  assert (Hok : forallb (button_pair_ok (cls self)) (Code.button_batch values) = true).
  { unfold Code.button_batch, button_pair_ok. unfold num_buttons in H13.
    cbn [forallb fst]. rewrite H13. reflexivity. }
  pose proof (wf_elim self Hwf) as (_ & _ & _ & Hlen & _).
  split; [exact Hok|]. split.
  - intros Hacc. unfold update_button, bind.
    rewrite (button_loop_applies false _ self Hlen Hok).
    destruct defer; cbn [negb]; [reflexivity|].
    apply update_returns; [|exact Hacc].
    pose proof (for_each_wf (update_button_pair false) (Code.button_batch values) self
                  (update_button_pair_wf false) Hwf) as H.
    now rewrite (button_loop_applies false _ self Hlen Hok) in H.
  - rewrite update_button_states, (button_loop_applies false _ self Hlen Hok).
    fields.
    assert (Hget : forall i, 0 <= i < 13 ->
              button_pressed (apply_buttons (Code.button_batch values)
                                            (_button_states self)) i
              = match last_value i (Code.button_batch values) with
                | Some v => v
                | None => button_pressed (_button_states self) i
                end).
    { intros i Hi. apply (apply_buttons_pressed (num_buttons self));
        [exact Hlen| |lia].
      now apply buttons_in_range. }
    cbn [map]. rewrite !Hget by lia. reflexivity.
Qed.

Lemma polling_loop_buttons_witness :
  wf (constructed six_axes) /\ num_buttons (constructed six_axes) = 13
  /\ forallb (button_pair_ok (cls (constructed six_axes)))
       (Code.button_batch
          {| Code.left_green := true; Code.left_blue := false; Code.left_red := false;
             Code.right_green := false; Code.right_blue := true; Code.right_red := false;
             Code.euphoria := false; Code.minus := true; Code.plus := false |})
     = true.
Proof.
  assert (Hwf : wf (constructed six_axes)) by (vm_compute; reflexivity).
  assert (H13 : num_buttons (constructed six_axes) = 13) by (vm_compute; reflexivity).
  split; [exact Hwf|]. split; [exact H13|].
  apply (polling_loop_buttons (constructed six_axes) _ false Hwf H13).
Defined.

(** ** The length of the reports *)

Lemma pack_into_length (fmt : string) (buffer values report : list Z) :
  struct.pack_into fmt buffer 0 values = Some report ->
  length report = length buffer.
Proof.
  intros H. apply pack_into_some in H as (_ & Hroom & _ & ->).
  rewrite length_app, length_drop. lia.
Qed.

Lemma leading_bytes_length (values : list Z) :
  (length (struct.leading_bytes values) <= length values)%nat.
Proof.
  induction values as [|v values IH]; cbn [struct.leading_bytes length]; [lia|].
  destruct (struct.is_byte v); cbn [length]; lia.
Qed.

Lemma pack_into_failed_length (fmt : string) (buffer values : list Z) :
  length (struct.pack_into_failed fmt buffer 0 values) = length buffer.
Proof.
  unfold struct.pack_into_failed.
  destruct (struct.calcsize fmt) as [n|]; [|reflexivity].
  destruct ((n =? length values) && (0 + n <=? length buffer))%nat eqn:E;
    [|reflexivity].
  bool_to_prop. pose proof (leading_bytes_length values).
  change (take 0 buffer) with (@nil Z). cbn [app Nat.add] in *.
  rewrite !length_app, repeat_length, length_drop. lia.
Qed.

Lemma update_sized (always : bool) (self : Joystick) :
  sized self ->
  sized (update always self).2
  /\ exists new, transmits self (update always self).2 new
       /\ (length new <= 1)%nat
       /\ Forall (fun r => length r = Z.to_nat (_report_size (cls self))) new.
Proof.
  intros [Hr Hl]. unfold update, sized, transmits.
  destruct (struct.pack_into _ _ 0 _) as [report|] eqn:Hpack.
  - apply pack_into_length in Hpack. rewrite Hr in Hpack.
    destruct (always || _).
    + unfold send_report. fields.
      destruct (faults (_device self)) as [|[|] fs]; fields; cbn [sent].
      * split; [easy|]. exists [report]. repeat split; [cbn; lia|].
        now constructor.
      * split; [easy|]. exists []. rewrite app_nil_r.
        repeat split; [cbn; lia|constructor].
      * split; [easy|]. exists [report]. repeat split; [cbn; lia|].
        now constructor.
    + fields. split; [easy|]. exists []. rewrite app_nil_r.
      repeat split; [cbn; lia|constructor].
  - fields. rewrite pack_into_failed_length.
    split; [easy|]. exists []. rewrite app_nil_r.
    repeat split; [cbn; lia|constructor].
Qed.

Lemma loop_then_update_sized {A} (set : list Z -> Joystick -> Joystick)
    (body : A -> M unit) (l : list A) (rest : M unit) (self : Joystick) :
  (forall l1 l2 s, set l2 (set l1 s) = set l2 s) ->
  (forall x s, (body x s).2 = s \/ exists l1, (body x s).2 = set l1 s) ->
  (forall l1 s, cls (set l1 s) = cls s /\ _report (set l1 s) = _report s
                /\ _last_report (set l1 s) = _last_report s
                /\ _device (set l1 s) = _device s) ->
  (forall s, sized s ->
     sized (rest s).2
     /\ exists new, transmits s (rest s).2 new /\ (length new <= 1)%nat
          /\ Forall (fun r => length r = Z.to_nat (_report_size (cls s))) new) ->
  sized self ->
  sized ((for_each body l >> rest) self).2
  /\ exists new, transmits self ((for_each body l >> rest) self).2 new
       /\ (length new <= 1)%nat
       /\ Forall (fun r => length r = Z.to_nat (_report_size (cls self))) new.
Proof.
  intros Hset Hbody Hframe Hrest Hs.
  pose proof (for_each_touches set body l self Hset Hbody) as Ht.
  unfold bind. destruct (for_each body l self) as [[e|u] s]; cbn [snd] in *.
  - assert (Hsame : cls s = cls self /\ _report s = _report self
                    /\ _last_report s = _last_report self /\ _device s = _device self)
      by (destruct Ht as [->|[l1 ->]]; [easy|apply Hframe]).
    destruct Hsame as (Hc & Hr & Hl & Hd). unfold sized, transmits in *.
    rewrite Hc, Hr, Hl, Hd. split; [exact Hs|]. exists []. rewrite app_nil_r.
    repeat split; [cbn; lia|constructor].
  - assert (Hsame : cls s = cls self /\ _report s = _report self
                    /\ _last_report s = _last_report self /\ _device s = _device self)
      by (destruct Ht as [->|[l1 ->]]; [easy|apply Hframe]).
    destruct Hsame as (Hc & Hr & Hl & Hd).
    assert (Hs' : sized s) by (unfold sized in *; now rewrite Hc, Hr, Hl).
    destruct (Hrest s Hs') as (Hsized & new & Htr & Hlen & Hall).
    unfold sized, transmits in *.
    destruct (rest s) as [r s2]; cbn [snd] in *.
    split; [exact Hsized|].
    exists new. rewrite <- Hd, <- Hc. now repeat split.
Qed.

Lemma maybe_update_sized (defer : bool) (self : Joystick) :
  sized self ->
  sized ((if negb defer then update false else ret tt) self).2
  /\ exists new,
       transmits self ((if negb defer then update false else ret tt) self).2 new
       /\ (length new <= 1)%nat
       /\ Forall (fun r => length r = Z.to_nat (_report_size (cls self))) new.
Proof.
  intros Hs. destruct defer; cbn [negb]; [|now apply update_sized].
  cbn. split; [exact Hs|]. exists []. unfold transmits. rewrite app_nil_r.
  repeat split; [cbn; lia|constructor].
Qed.

(** X17. Reports keep their length: when the report buffer and the last
    sent report have the configured report length, they still have it
    after a report cycle, [update_axis], [update_button] or [reset_all],
    however the call ends; and each of these calls transmits at most one
    report, of that length. *)
Theorem reports_keep_their_length (self : Joystick) :
  sized self ->
  forall call : M unit,
    (exists always, call = update always)
    \/ (exists axis defer skip, call = update_axis axis defer skip)
    \/ (exists button defer skip, call = update_button button defer skip)
    \/ call = reset_all ->
    sized (call self).2
    /\ exists new, transmits self (call self).2 new
         /\ (length new <= 1)%nat
         /\ Forall (fun r => length r = Z.to_nat (_report_size (cls self))) new.
Proof.
  intros Hs call [[always ->]|[(axis & defer & skip & ->)
                              |[(button & defer & skip & ->)| ->]]].
  - now apply update_sized.
  - unfold update_axis.
    apply (loop_then_update_sized set_axis_states); try easy.
    + apply update_axis_pair_touches.
    + intros s. apply maybe_update_sized.
  - unfold update_button.
    apply (loop_then_update_sized set_button_states); try easy.
    + apply update_button_pair_touches.
    + intros s. apply maybe_update_sized.
  - unfold reset_all. unfold bind at 1. unfold gets at 1.
    apply (loop_then_update_sized set_axis_states); try easy.
    + intros i s. unfold axis_setitem.
      destruct (Py.setitem _ _ _) as [l|]; [right; now exists l|now left].
    + intros s Hs'. unfold bind at 1. unfold gets at 1.
      apply (loop_then_update_sized set_button_states); try easy.
      * intros i s0. unfold button_setitem.
        destruct (Py.setitem _ _ _) as [l|]; [right; now exists l|now left].
      * intros s0. apply update_sized.
Qed.

Lemma reports_keep_their_length_witness :
  sized (constructed six_axes)
  /\ sized (update_axis [(0, 7); (9, 1)] false false (constructed six_axes)).2
  /\ sized (reset_all (constructed six_axes)).2.
Proof.
  assert (Hs : sized (constructed six_axes)) by (split; vm_compute; reflexivity).
  split; [exact Hs|]. split.
  - apply (reports_keep_their_length (constructed six_axes) Hs
             (update_axis [(0, 7); (9, 1)] false false)).
    right. left. now exists [(0, 7); (9, 1)], false, false.
  - apply (reports_keep_their_length (constructed six_axes) Hs reset_all).
    now right; right; right.
Defined.

(** X18. A report buffer too short for the axis values and button bytes:
    every report cycle raises the error of [struct.pack_into] and changes
    nothing and sends nothing; hence a configuration whose report length is
    below the number of axes plus the number of button bytes makes
    construction raise that error. *)
Theorem report_buffer_too_short :
  (forall (self : Joystick) (always : bool),
     struct.calcsize (_format self)
     = Some (length (_axis_states self) + length (_button_states self))%nat ->
     (length (_report self)
      < length (_axis_states self) + length (_button_states self))%nat ->
     update always self = (inl StructError, self))
  /\ (forall c boot_out devices c' device,
        load_configuration c boot_out = (inr tt, c') ->
        _get_device devices = inr device ->
        0 <= _num_axes c' -> 0 <= _num_buttons c' ->
        0 <= _report_size c' < _num_axes c' + button_banks (_num_buttons c') ->
        __init__ c boot_out devices = inl StructError).
Proof.
  assert (Hupdate : forall (self : Joystick) (always : bool),
     struct.calcsize (_format self)
     = Some (length (_axis_states self) + length (_button_states self))%nat ->
     (length (_report self)
      < length (_axis_states self) + length (_button_states self))%nat ->
     update always self = (inl StructError, self)).
  { intros self always Hf Hshort.
    unfold update, struct.pack_into, struct.pack_into_failed.
    rewrite Hf, length_app, Nat.eqb_refl. cbn [Nat.add andb].
    apply Nat.leb_gt in Hshort. rewrite Hshort. cbn [andb].
    now rewrite set_report_same. }
  split; [exact Hupdate|].
  intros c boot_out devices c' device Hload Hdev Ha Hb Hsize. unfold __init__.
  rewrite Hload, Hdev. unfold bytearray.
  replace (_report_size c' <? 0) with false by (symmetry; apply Z.ltb_ge; lia).
  pose proof (iter_append_state (Py.range (_num_axes c')) Axis.IDLE [] "<" 0 eq_refl)
    as [Hax Hf1].
  destruct (Nat.iter (Py.range (_num_axes c')) _ _) as [axes fmt1].
  cbn [fst snd app Nat.add] in Hax, Hf1. subst axes.
  pose proof (iter_append_state (Py.range (button_banks (_num_buttons c'))) 0
                [] fmt1 _ Hf1) as [Hbt Hf2].
  destruct (Nat.iter (Py.range (button_banks (_num_buttons c'))) _ _)
    as [buttons fmt2].
  cbn [fst snd app] in Hbt, Hf2. subst buttons. unfold Py.range in *.
  set (self0 := {| cls := c'; _device := device; _report := _;
                   _last_report := _; _format := fmt2; _axis_states := _;
                   _button_states := _ |}).
  unfold try_except_OSError.
  rewrite (reset_all_loops self0) by (subst self0; fields; now rewrite repeat_length).
  rewrite Hupdate; [reflexivity| |]; subst self0; fields;
    rewrite !repeat_length; [exact Hf2|].
  pose proof (button_banks_nonneg _ Hb). lia.
Qed.

Lemma report_buffer_too_short_witness :
  load_configuration class_defaults (Some ["JoystickXL 6 13 0 7"])
  = (inr tt, {| _num_axes := 6; _num_buttons := 13; _report_size := 7 |})
  /\ _get_device [joystick_device] = inr joystick_device
  /\ __init__ class_defaults (Some ["JoystickXL 6 13 0 7"]) [joystick_device]
     = inl StructError.
Proof.
  assert (H1 : load_configuration class_defaults (Some ["JoystickXL 6 13 0 7"])
               = (inr tt, {| _num_axes := 6; _num_buttons := 13; _report_size := 7 |}))
    by (vm_compute; reflexivity).
  assert (H2 : _get_device [joystick_device] = inr joystick_device)
    by (vm_compute; reflexivity).
  split; [exact H1|]. split; [exact H2|].
  destruct report_buffer_too_short as [_ H].
  apply (H _ _ _ _ _ H1 H2).
  - vm_compute; discriminate.
  - vm_compute; discriminate.
  - vm_compute. split; [discriminate|reflexivity].
Defined.

Lemma axis_loop_skip (pairs : list (Z * Z)) (self : Joystick) :
  forallb (axis_pair_ok (cls self)) pairs = true ->
  for_each (update_axis_pair true) pairs self
  = for_each (update_axis_pair false) pairs self.
Proof.
  revert self. induction pairs as [|[a v] pairs IH]; intros self Hok; [reflexivity|].
  cbn [forallb] in Hok. apply andb_true_iff in Hok as [Hp Hok].
  cbn [for_each]. unfold bind.
  assert (Hbody : update_axis_pair true (a, v) self
                  = update_axis_pair false (a, v) self).
  { unfold update_axis_pair, bind. now rewrite (validate_axis_ok self a v Hp). }
  rewrite Hbody.
  pose proof (update_axis_pair_touches false (a, v) self) as Ht.
  destruct (update_axis_pair false (a, v) self) as [[e|u] s]; [reflexivity|].
  apply IH. cbn [snd] in Ht. now destruct Ht as [->|[l ->]].
Qed.

Lemma button_loop_skip (pairs : list (Z * bool)) (self : Joystick) :
  forallb (button_pair_ok (cls self)) pairs = true ->
  for_each (update_button_pair true) pairs self
  = for_each (update_button_pair false) pairs self.
Proof.
  revert self. induction pairs as [|[b v] pairs IH]; intros self Hok; [reflexivity|].
  cbn [forallb] in Hok. apply andb_true_iff in Hok as [Hp Hok].
  cbn [for_each]. unfold bind.
  assert (Hbody : update_button_pair true (b, v) self
                  = update_button_pair false (b, v) self).
  { unfold update_button_pair, bind.
    apply button_pair_ok_iff in Hp. cbn [fst] in Hp.
    now rewrite (validate_button_ok self b Hp). }
  rewrite Hbody.
  pose proof (update_button_pair_touches false (b, v) self) as Ht.
  destruct (update_button_pair false (b, v) self) as [[e|u] s]; [reflexivity|].
  apply IH. cbn [snd] in Ht. now destruct Ht as [->|[l ->]].
Qed.

(** X19. Skipping validation changes nothing for a batch whose pairs all
    pass it: [update_axis] and [update_button] then give the same result,
    the same state and the same transmissions with [skip_validation] true
    as with it false. *)
Theorem skip_validation_is_neutral_on_valid_batches (self : Joystick) (defer : bool) :
  (forall axis,
     forallb (axis_pair_ok (cls self)) axis = true ->
     update_axis axis defer true self = update_axis axis defer false self)
  /\ (forall button,
     forallb (button_pair_ok (cls self)) button = true ->
     update_button button defer true self = update_button button defer false self).
Proof.
  split.
  - intros axis Hok. unfold update_axis, bind. now rewrite axis_loop_skip.
  - intros button Hok. unfold update_button, bind. now rewrite button_loop_skip.
Qed.

Lemma skip_validation_is_neutral_on_valid_batches_witness :
  forallb (axis_pair_ok (cls (constructed six_axes))) [(0, 7); (-1, 9)] = true
  /\ update_axis [(0, 7); (-1, 9)] false true (constructed six_axes)
     = update_axis [(0, 7); (-1, 9)] false false (constructed six_axes).
Proof.
  assert (H : forallb (axis_pair_ok (cls (constructed six_axes))) [(0, 7); (-1, 9)]
              = true) by (vm_compute; reflexivity).
  split; [exact H|].
  apply (skip_validation_is_neutral_on_valid_batches (constructed six_axes) false).
  exact H.
Defined.

(** ** A report cycle that fails on a value *)



